(** * Insider-Terminal: the filing pipeline of [Scraper.py] and the merge of
    [dashboard.py], embedded as Rocq functions.

    Conventions of the embedding.
    - A Python [str] is a list of code points below 256 ([list ascii]); the
      builtins used by the source ([strip], [upper], [endswith], [split],
      [splitlines], [replace], [join]) and the three regular expressions of
      [clean_and_extract_xml] are written out in module [Py]. [upper] is
      [str.upper] on these code points, 181 and 255 apart, whose upper-case
      forms lie above 255 ([Py.upper_in_range]); the markers matched
      without regard to case are ASCII, so that matching folds the ASCII
      letters.
    - A Python [float] is an IEEE binary64 number: the kernel's [PrimFloat].
      The conversions between [str] and [float] (the builtins [float()] and
      [str()]) are parameters of the development.
    - An [xml.etree.ElementTree.Element] is a rose tree carrying a tag, an
      optional text and its children (module [ET]). The HTTP download and
      the XML parser are parameters.
    - A call that may raise returns an [outcome]: [Return v] or [Raise e]. *)

From Stdlib Require Import List Bool Arith ZArith Lia Ascii String.
From Stdlib Require Import Uint63 PrimFloat SpecFloat FloatOps DecimalString.
Import ListNotations.

Set Implicit Arguments.

(** ** Python strings *)

Definition pystr := list ascii.

Coercion list_ascii_of_string : string >-> list.
Arguments list_ascii_of_string : simpl never.

Module Py.

Definition code (c : ascii) : nat := nat_of_ascii c.

(** [str.isspace] on one code point below 256. *)
Definition is_space (c : ascii) : bool :=
  let n := code c in
  ((9 <=? n) && (n <=? 13)) || ((28 <=? n) && (n <=? 32))
  || (n =? 133) || (n =? 160).

Fixpoint lstrip (s : pystr) : pystr :=
  match s with
  | [] => []
  | c :: s' => if is_space c then lstrip s' else s
  end.

Definition rstrip (s : pystr) : pystr := rev (lstrip (rev s)).

(** [s.strip()] *)
Definition strip (s : pystr) : pystr := rstrip (lstrip s).

(** [c.upper()] for one code point below 256, as [str.upper] gives it:
    a-z and the letters 224-246 and 248-254 move down by 32, 223 becomes
    "SS", every other code point stays. The upper-case forms of 181 and
    255 are U+039C and U+0178, above 255: the model keeps 181 and 255
    themselves to stand for them, and no other code point below 256 has
    those forms. *)
Definition upper_char (c : ascii) : pystr :=
  let n := code c in
  if (97 <=? n) && (n <=? 122) then [ascii_of_nat (n - 32)]
  else if n =? 223 then ["S"%char; "S"%char]
  else if ((224 <=? n) && (n <=? 246)) || ((248 <=? n) && (n <=? 254))
  then [ascii_of_nat (n - 32)]
  else [c].

Definition lower_char (c : ascii) : ascii :=
  let n := code c in
  if (65 <=? n) && (n <=? 90) then ascii_of_nat (n + 32) else c.

(** [s.upper()] *)
Definition upper (s : pystr) : pystr := flat_map upper_char s.

(** The strings that hold neither 181 nor 255: on these [upper] is
    [str.upper] code point for code point. *)
Definition upper_in_range (s : pystr) : bool :=
  forallb (fun c => negb ((code c =? 181) || (code c =? 255))) s.

Fixpoint startswith (s p : pystr) : bool :=
  match p, s with
  | [], _ => true
  | _ :: _, [] => false
  | a :: p', c :: s' => Ascii.eqb c a && startswith s' p'
  end.

(** [s.endswith(suffix)] *)
Definition endswith (s suffix : pystr) : bool :=
  startswith (rev s) (rev suffix).

(** [s == t] on strings. *)
Definition eqb (s t : pystr) : bool :=
  if list_eq_dec ascii_dec s t then true else false.

(** [s.replace(c, '')] for a one-character [c]. *)
Definition remove_char (c : ascii) (s : pystr) : pystr :=
  filter (fun x => negb (Ascii.eqb x c)) s.

(** [s.split(sep)] for a one-character separator. *)
Fixpoint split (sep : ascii) (s : pystr) : list pystr :=
  match s with
  | [] => [[]]
  | c :: s' =>
      if Ascii.eqb c sep then [] :: split sep s'
      else match split sep s' with
           | f :: fs => (c :: f) :: fs
           | [] => [[c]]
           end
  end.

(** Line boundaries of [str.splitlines] below code point 256, apart from
    the two-character boundary CR LF. *)
Definition is_linebreak (c : ascii) : bool :=
  let n := code c in
  ((10 <=? n) && (n <=? 13)) || ((28 <=? n) && (n <=? 30)) || (n =? 133).

Fixpoint splitlines_from (cur : pystr) (s : pystr) : list pystr :=
  match s with
  | [] => match cur with [] => [] | _ => [rev cur] end
  | c :: s' =>
      if code c =? 13 then
        match s' with
        | d :: s'' =>
            if code d =? 10 then rev cur :: splitlines_from [] s''
            else rev cur :: splitlines_from [] s'
        | [] => rev cur :: splitlines_from [] s'
        end
      else if is_linebreak c then rev cur :: splitlines_from [] s'
      else splitlines_from (c :: cur) s'
  end.

(** [s.splitlines()] *)
Definition splitlines (s : pystr) : list pystr := splitlines_from [] s.

(** [sep.join(parts)] *)
Fixpoint join (sep : pystr) (parts : list pystr) : pystr :=
  match parts with
  | [] => []
  | [p] => p
  | p :: ps => p ++ sep ++ join sep ps
  end.

(** [s[a:b]] for [0 <= a] and [0 <= b]. *)
Definition slice (s : pystr) (a b : nat) : pystr := firstn (b - a) (skipn a s).

(** *** The regular expressions of [clean_and_extract_xml] *)

(** A literal pattern matched at the head of [s] under [re.IGNORECASE]. *)
Fixpoint match_ci (pat s : pystr) : bool :=
  match pat, s with
  | [], _ => true
  | _ :: _, [] => false
  | a :: pat', c :: s' =>
      Ascii.eqb (lower_char c) (lower_char a) && match_ci pat' s'
  end.

(** [re.search(pat, s, re.IGNORECASE)] for a literal [pat]: the start of
    the leftmost match. *)
Fixpoint search_ci (pat s : pystr) : option nat :=
  if match_ci pat s then Some 0
  else match s with
       | [] => None
       | _ :: s' => option_map S (search_ci pat s')
       end.

(** [[^>]*\?>] matched at the head of [s]: the greedy star first, the
    rest of the pattern on backtracking. The result is the match length. *)
Fixpoint match_decl_tail (s : pystr) : option nat :=
  match s with
  | [] => None
  | c :: s' =>
      match (if Ascii.eqb c ">" then None
             else option_map S (match_decl_tail s')) with
      | Some n => Some n
      | None => if startswith s "?>"%string then Some 2 else None
      end
  end.

(** [<\?xml[^>]*\?>] matched at the head of [s] under [re.IGNORECASE]. *)
Definition match_decl (s : pystr) : option nat :=
  if match_ci "<?xml"%string s
  then option_map (fun n => 5 + n) (match_decl_tail (skipn 5 s))
  else None.

(** [re.sub] of that pattern by the empty string: [skip] counts the
    characters of the current match still to drop. *)
Fixpoint sub_decl_from (skip : nat) (s : pystr) : pystr :=
  match s with
  | [] => []
  | c :: s' =>
      match skip with
      | S k => sub_decl_from k s'
      | O => match match_decl s with
             | Some n => sub_decl_from (n - 1) s'
             | None => c :: sub_decl_from 0 s'
             end
      end
  end.

Definition sub_decl (s : pystr) : pystr := sub_decl_from 0 s.

End Py.

(** ** ElementTree *)

Module ET.

#[warnings="-register-all"]
Inductive Element : Type :=
| Elem (tag : pystr) (text : option pystr) (children : list Element).

Definition tag (e : Element) : pystr := let 'Elem t _ _ := e in t.
Definition text (e : Element) : option pystr := let 'Elem _ x _ := e in x.
Definition children (e : Element) : list Element := let 'Elem _ _ c := e in c.

(** [e.iter()]: the element itself, then its descendants, in document
    order. *)
Fixpoint iter (e : Element) : list Element :=
  match e with
  | Elem _ _ cs => e :: flat_map iter cs
  end.

(** The elements selected by the path [.//name]: every proper descendant
    whose tag is exactly [name], in document order. *)
Definition findall (e : Element) (name : pystr) : list Element :=
  filter (fun d => Py.eqb (tag d) name) (flat_map iter (children e)).

(** [e.find('.//name')] *)
Definition find (e : Element) (name : pystr) : option Element :=
  hd_error (findall e name).

(** Truth value of [e.text]: present and not empty. *)
Definition has_text (e : Element) : bool :=
  match text e with
  | Some (_ :: _) => true
  | _ => false
  end.

Definition text_or_empty (e : Element) : pystr :=
  match text e with Some s => s | None => [] end.

End ET.

(** ** Exceptions *)

Inductive exn : Type := ValueError | ParseError | TypeError | AttributeError.

Inductive outcome (A : Type) : Type :=
| Return (a : A)
| Raise (e : exn).

Arguments Return {A} a.
Arguments Raise {A} e.

Definition bind {A B : Type} (m : outcome A) (k : A -> outcome B) : outcome B :=
  match m with
  | Return a => k a
  | Raise e => Raise e
  end.

Notation "x <- m ;; k" := (bind m (fun x => k))
  (at level 61, m at next level, right associativity).

(** ** Scraper.py *)

(** What [extract_value_via_iteration] returns: [None] or a float. *)
Inductive pyval : Type := PyNone | PyFloat (f : float).

(** [v == 0.0] *)
Definition is_zero (v : pyval) : bool :=
  match v with
  | PyNone => false
  | PyFloat f => PrimFloat.eqb f 0
  end.

(** The trade dictionary built by [parse_form4_url], key by key. *)
Record Trade : Type := mkTrade {
  date : pystr;
  code : pystr;
  ticker : pystr;
  shares : float;
  price : float;
  value : float;
  company_name : pystr;
  filer : pystr;
  person_title : pystr;
  is_value_trade : bool
}.

(** The four identifiers [parse_form4_url] collects before the transactions. *)
Record Metadata : Type := mkMetadata {
  issuer_name : pystr;
  issuer_ticker : pystr;
  filer_name : pystr;
  filer_relationship : pystr
}.

Definition TARGET_CODES : list pystr :=
  [("P"%string : pystr); ("S"%string : pystr); ("M"%string : pystr);
   ("X"%string : pystr); ("V"%string : pystr)].

Definition VALUE_CODES : list pystr :=
  [("P"%string : pystr); ("S"%string : pystr)].

Definition MIN_TRADE_VALUE : float := 1000000%float.

Definition NAMESPACE : pystr := "{http://www.sec.gov/edgar/v1}"%string.

(** [x in codes] *)
Definition py_in (x : pystr) (codes : list pystr) : bool :=
  existsb (Py.eqb x) codes.

(** The loop of [get_form4_urls_from_index] over the lines of the index. *)
Definition index_step (form4_urls : list pystr) (line : pystr) : list pystr :=
  let parts := Py.split "|" line in
  if (3 <=? List.length parts) && Py.eqb (nth 2 parts []) "4"%string then
    if List.length parts =? 5 then
      let file_path := nth 4 parts [] in
      form4_urls ++ [("https://www.sec.gov/Archives/"%string : pystr) ++ file_path]
    else form4_urls
  else form4_urls.

Definition form4_urls_of_index (index_text : pystr) : list pystr :=
  fold_left index_step (Py.splitlines index_text) [].

(** [clean_and_extract_xml] *)
Definition START_TAG : pystr := "<ownershipDocument"%string.
Definition END_TAG : pystr := "</ownershipDocument>"%string.

Definition clean_and_extract_xml (xml_text : pystr) : outcome pystr :=
  let start_match := Py.search_ci START_TAG xml_text in
  let end_match := Py.search_ci END_TAG xml_text in
  match start_match with
  | None => Raise ValueError
  | Some xml_start_index =>
      let cleaned_xml :=
        match end_match with
        | Some e =>
            let xml_end_index := e + List.length END_TAG in
            Py.slice xml_text xml_start_index xml_end_index
        | None => skipn xml_start_index xml_text
        end in
      Return (Py.strip (Py.sub_decl cleaned_xml))
  end.

(** [pat] occurs in [s] up to the case of its letters. *)
Definition occurs_ci (pat s : pystr) : Prop :=
  exists pre m post,
    s = pre ++ m ++ post /\ map Py.lower_char m = map Py.lower_char pat.

(** An XML declaration: ["<?xml"] in any case of its letters, then
    characters other than [">"], then ["?>"]. *)
Definition is_declaration (d : pystr) : Prop :=
  exists m body,
    d = m ++ body ++ ("?>"%string : pystr)
    /\ map Py.lower_char m = map Py.lower_char ("<?xml"%string : pystr)
    /\ ~ In ">"%char body.

(** A text made of [a] and then of declarations, each followed by a text,
    and the same text with the declarations left out. *)
Fixpoint with_declarations (a : pystr) (segments : list (pystr * pystr)) : pystr :=
  match segments with
  | [] => a
  | (d, x) :: rest => a ++ d ++ with_declarations x rest
  end.

Fixpoint without_declarations (a : pystr) (segments : list (pystr * pystr))
  : pystr :=
  match segments with
  | [] => a
  | (_, x) :: rest => a ++ without_declarations x rest
  end.

(** No match of the declaration pattern can start inside a text that
    matches [pat]: each character of [pat] is no ["<"], or is followed by
    one that is no ["?"]. *)
Fixpoint decl_free (pat : pystr) : bool :=
  match pat with
  | [] => true
  | a :: p =>
      (negb (Ascii.eqb (Py.lower_char a) "<")
       || match p with
          | b :: _ => negb (Ascii.eqb (Py.lower_char b) "?")
          | [] => false
          end)
      && decl_free p
  end.

(** The first loop of [parse_form4_url]: no [break], so every matching
    element with text assigns its variable again. *)
Definition metadata_step (m : Metadata) (element : ET.Element) : Metadata :=
  let t := Py.strip (ET.text_or_empty element) in
  if Py.endswith (ET.tag element) "issuerName"%string && ET.has_text element then
    mkMetadata t (issuer_ticker m) (filer_name m) (filer_relationship m)
  else if Py.endswith (ET.tag element) "issuerTradingSymbol"%string
          && ET.has_text element then
    mkMetadata (issuer_name m) (Py.upper t) (filer_name m) (filer_relationship m)
  else if Py.endswith (ET.tag element) "rptOwnerName"%string
          && ET.has_text element then
    mkMetadata (issuer_name m) (issuer_ticker m) t (filer_relationship m)
  else if Py.endswith (ET.tag element) "rptOwnerTitle"%string
          && ET.has_text element then
    mkMetadata (issuer_name m) (issuer_ticker m) (filer_name m) t
  else m.

Definition initial_metadata : Metadata :=
  mkMetadata ("UNKNOWN"%string : pystr) ("N/A"%string : pystr)
             ("UNKNOWN"%string : pystr) ("N/A"%string : pystr).

Definition scan_metadata (root : ET.Element) : Metadata :=
  fold_left metadata_step (ET.iter root) initial_metadata.

(** The test of each branch of that loop: the tag ends with [suffix] and
    the element has text. *)
Definition matches (suffix : pystr) (e : ET.Element) : bool :=
  Py.endswith (ET.tag e) suffix && ET.has_text e.

(** [e] is the last element of [root.iter()] that passes the test. *)
Definition last_with_text (suffix : pystr) (root e : ET.Element) : Prop :=
  exists l1 l2,
    ET.iter root = l1 ++ e :: l2
    /\ matches suffix e = true
    /\ Forall (fun x => matches suffix x = false) l2.

(** [root.find('.//name') is not None and root.find('.//name').text.strip() == '1']:
    an element without text has [text = None], and [None.strip()] raises. *)
Definition flag_is_set (root : ET.Element) (name : pystr) : outcome bool :=
  match ET.find root name with
  | None => Return false
  | Some e =>
      match ET.text e with
      | None => Raise AttributeError
      | Some t => Return (Py.eqb (Py.strip t) "1"%string)
      end
  end.

Definition add_flag (b : bool) (label : pystr) (flags : list pystr) : list pystr :=
  if b then flags ++ [label] else flags.

(** The relationship synthesized from the boolean flags. *)
Definition infer_relationship (root : ET.Element) : outcome pystr :=
  d <- flag_is_set root "isDirector"%string ;;
  let flags := add_flag d ("Director"%string : pystr) [] in
  o <- flag_is_set root "isOfficer"%string ;;
  let flags := add_flag o ("Officer"%string : pystr) flags in
  t <- flag_is_set root "isTenPercentOwner"%string ;;
  let flags := add_flag t ("10% Owner"%string : pystr) flags in
  x <- flag_is_set root "isOther"%string ;;
  let flags :=
    if x then
      match ET.find root "otherText"%string with
      | Some other =>
          if ET.has_text other
          then flags ++ [Py.strip (ET.text_or_empty other)]
          else flags ++ [("Other (Filer Specified)"%string : pystr)]
      | None => flags ++ [("Other (Filer Specified)"%string : pystr)]
      end
    else flags in
  match flags with
  | [] => Return ("Other"%string : pystr)
  | _ :: _ => Return (Py.join ", "%string flags)
  end.

(** Step 1 of [parse_form4_url]. *)
Definition extract_metadata (root : ET.Element) : outcome Metadata :=
  let m := scan_metadata root in
  if Py.eqb (filer_relationship m) "N/A"%string || Py.eqb (filer_relationship m) []
  then
    r <- infer_relationship root ;;
    Return (mkMetadata (issuer_name m) (issuer_ticker m) (filer_name m) r)
  else Return m.

(** [root.findall(f'.//{NAMESPACE}name') or root.findall('.//name')] *)
Definition find_transactions (root : ET.Element) (name : pystr) : list ET.Element :=
  match ET.findall root (NAMESPACE ++ name) with
  | [] => ET.findall root name
  | l => l
  end.

Definition transactions (root : ET.Element) : list ET.Element :=
  find_transactions root "nonDerivativeTransaction"%string
  ++ find_transactions root "derivativeTransaction"%string.

(** The loop over [transaction.iter()] that picks the code and the date;
    the state is the pair [(transaction_code, transaction_date)]. *)
Definition code_date_step (st : pystr * pystr) (element : ET.Element)
  : pystr * pystr :=
  if Py.endswith (ET.tag element) "transactionCode"%string && ET.has_text element
  then (Py.upper (Py.strip (ET.text_or_empty element)), snd st)
  else if Py.endswith (ET.tag element) "transactionDate"%string then
    match ET.find element "value"%string with
    | Some d =>
        if ET.has_text d then (fst st, Py.strip (ET.text_or_empty d)) else st
    | None => st
    end
  else st.

Definition code_and_date (transaction : ET.Element) : pystr * pystr :=
  fold_left code_date_step (ET.iter transaction)
            (("N/A"%string : pystr), ("N/A"%string : pystr)).

(** The filter at the end of the transaction loop: [true] when the trade is
    appended. *)
Definition keep_trade (trade : Trade) : bool :=
  if is_value_trade trade && PrimFloat.leb MIN_TRADE_VALUE (value trade) then true
  else if negb (is_value_trade trade) then true
  else false.

Section Scraper.

(** The builtin [float()] on a string: [None] stands for [ValueError]. *)
Variable py_float : pystr -> option float.

(** [requests.get] followed by [raise_for_status] and [.text]: [None]
    stands for a [requests.exceptions.RequestException]. *)
Variable http_get : pystr -> option pystr.

(** [ET.fromstring]: [None] stands for [ET.ParseError]. *)
Variable fromstring : pystr -> option ET.Element.

Definition extract_value_via_iteration
    (parent_element : ET.Element) (target_tag_name : pystr) : pyval :=
  match List.find (fun element => Py.endswith (ET.tag element) target_tag_name)
                  (ET.iter parent_element) with
  | None => PyNone
  | Some container_element =>
      let value :=
        match List.find
                (fun element =>
                   Py.endswith (ET.tag element) "value"%string
                   && ET.has_text element)
                (ET.iter container_element) with
        | Some element => Py.strip (ET.text_or_empty element)
        | None => []
        end in
      match value with
      | [] => PyFloat 0
      | _ :: _ =>
          match py_float (Py.strip (Py.remove_char "," value)) with
          | Some f => PyFloat f
          | None => PyFloat 0
          end
      end
  end.

(** One turn of the transaction loop: [Return None] is a [continue] or a
    trade the value filter drops, [Return (Some t)] appends [t]. *)
Definition process_transaction (m : Metadata) (transaction : ET.Element)
  : outcome (option Trade) :=
  let (transaction_code, transaction_date) := code_and_date transaction in
  if negb (py_in transaction_code TARGET_CODES) then Return None
  else
    let shares := extract_value_via_iteration transaction "transactionShares"%string in
    if is_zero shares then Return None
    else
      let price :=
        extract_value_via_iteration transaction "transactionPricePerShare"%string in
      (* value = shares * price: a product with [None] raises TypeError *)
      match shares, price with
      | PyFloat s, PyFloat p =>
          let value := PrimFloat.mul s p in
          let is_value_trade := py_in transaction_code VALUE_CODES in
          let trade :=
            mkTrade transaction_date transaction_code (issuer_ticker m)
                    s p value (issuer_name m) (filer_name m)
                    (filer_relationship m) is_value_trade in
          if keep_trade trade then Return (Some trade) else Return None
      | _, _ => Raise TypeError
      end.

(** The transaction loop: [trades] is the list appended to; an exception
    leaves it as it stands. *)
Fixpoint process_transactions (m : Metadata) (txs : list ET.Element)
    (trades : list Trade) : list Trade * option exn :=
  match txs with
  | [] => (trades, None)
  | transaction :: rest =>
      match process_transaction m transaction with
      | Raise e => (trades, Some e)
      | Return None => process_transactions m rest trades
      | Return (Some trade) => process_transactions m rest (trades ++ [trade])
      end
  end.

(** The body of the second [try] of [parse_form4_url]: the list [trades]
    when the body ends, and the exception that ended it, if any. *)
Definition try_body (xml_text : pystr) : list Trade * option exn :=
  match clean_and_extract_xml xml_text with
  | Raise e => ([], Some e)
  | Return cleaned_xml_text =>
      match fromstring cleaned_xml_text with
      | None => ([], Some ParseError)
      | Some root =>
          match extract_metadata root with
          | Raise e => ([], Some e)
          | Return m => process_transactions m (transactions root) []
          end
      end
  end.

Definition parse_form4_url (xml_url : pystr) : outcome (list Trade) :=
  match http_get xml_url with
  | None => Return []
  | Some xml_text =>
      let (trades, raised) := try_body xml_text in
      match raised with
      | Some ValueError => Return trades
      | Some ParseError => Return trades
      | Some _ => Return trades
      | None => Return trades
      end
  end.

(** A failure of [parse_form4_url] before the transaction loop starts:
    in the download, in the sanitizer, in the tree parser or in the
    extraction of the metadata. *)
Inductive early_failure (xml_url : pystr) : Prop :=
| DownloadFailed :
    http_get xml_url = None -> early_failure xml_url
| SanitizeFailed (xml_text : pystr) (e : exn) :
    http_get xml_url = Some xml_text ->
    clean_and_extract_xml xml_text = Raise e -> early_failure xml_url
| TreeParseFailed (xml_text cleaned : pystr) :
    http_get xml_url = Some xml_text ->
    clean_and_extract_xml xml_text = Return cleaned ->
    fromstring cleaned = None -> early_failure xml_url
| MetadataFailed (xml_text cleaned : pystr) (root : ET.Element) (e : exn) :
    http_get xml_url = Some xml_text ->
    clean_and_extract_xml xml_text = Return cleaned ->
    fromstring cleaned = Some root ->
    extract_metadata root = Raise e -> early_failure xml_url.

(** [get_form4_urls_from_index], given the URL of the index. *)
Definition get_form4_urls_from_index (index_url : pystr) : list pystr :=
  match http_get index_url with
  | None => []
  | Some index_text => form4_urls_of_index index_text
  end.

End Scraper.

(** ** dashboard.py *)

(** The composite key of [deduplicate_trades]. *)
Definition trade_key : Type := (pystr * pystr * pystr * pystr * pystr * pystr)%type.

Definition trade_key_eq_dec (a b : trade_key) : {a = b} + {a <> b}.
Proof. repeat decide equality; apply ascii_dec. Defined.

Arguments trade_key_eq_dec : simpl never.

(** The body of an upload as [upload_trades] inspects it: a JSON object or
    not, and under its key ['trades'] nothing, a list of trades or
    something else. *)
Inductive trades_field : Type := NotAList | TradeList (l : list Trade).
Inductive payload : Type := NotADict | Dict (trades : option trades_field).

Record Request : Type := mkRequest {
  is_json : bool;                 (* request.is_json *)
  get_json : option payload;      (* request.get_json(): None when the body
                                     does not parse, which Flask answers 400 *)
  x_api_key : option pystr        (* request.headers.get('X-API-KEY') *)
}.

(** [l1] is [l2] with some elements left out, the others in their order. *)
Inductive subsequence {A : Type} : list A -> list A -> Prop :=
| subsequence_nil : subsequence [] []
| subsequence_skip (x : A) (l1 l2 : list A) :
    subsequence l1 l2 -> subsequence l1 (x :: l2)
| subsequence_keep (x : A) (l1 l2 : list A) :
    subsequence l1 l2 -> subsequence (x :: l1) (x :: l2).

Section Dashboard.

(** The builtin [str()] on a float. *)
Variable py_str : float -> pystr.

Variable DASHBOARD_API_KEY : pystr.

(** The trades are the dictionaries the scraper uploads: each of the six
    keys is present, so no default of [trade.get] is taken. *)
Definition unique_key (trade : Trade) : trade_key :=
  (date trade, ticker trade, filer trade, code trade,
   py_str (shares trade), py_str (price trade)).

(** [unique_key in unique_trades], the dict kept in insertion order. *)
Definition key_in (k : trade_key) (unique_trades : list (trade_key * Trade)) : bool :=
  existsb (fun kv => if trade_key_eq_dec k (fst kv) then true else false)
          unique_trades.

Definition dedup_step (unique_trades : list (trade_key * Trade)) (trade : Trade)
  : list (trade_key * Trade) :=
  if key_in (unique_key trade) unique_trades then unique_trades
  else unique_trades ++ [(unique_key trade, trade)].

Definition deduplicate_trades (trades : list Trade) : list Trade :=
  map snd (fold_left dedup_step trades []).

(** The merge of [upload_trades]: existing trades, then the new ones,
    deduplicated as one list. *)
Definition merge (existing_trades new_trades : list Trade) : list Trade :=
  deduplicate_trades (existing_trades ++ new_trades).


(** First-insertion order, stated on the list itself: the trades in their
    order, each kept only where its key occurs for the first time; [seen]
    holds the keys met so far. *)
Fixpoint first_occurrences (seen : list trade_key) (trades : list Trade)
  : list Trade :=
  match trades with
  | [] => []
  | t :: rest =>
      if in_dec trade_key_eq_dec (unique_key t) seen
      then first_occurrences seen rest
      else t :: first_occurrences (seen ++ [unique_key t]) rest
  end.

(** [received_key != DASHBOARD_API_KEY] *)
Definition key_mismatch (received_key : option pystr) : bool :=
  match received_key with
  | Some k => negb (Py.eqb k DASHBOARD_API_KEY)
  | None => true
  end.

(** [upload_trades] on a request and the stored trades: the status code of
    the response and the trades stored afterwards. A payload that is no
    object has no [get]: the handler raises and Flask answers 500. *)
Definition upload_trades (request : Request) (stored : list Trade)
  : nat * list Trade :=
  if negb (is_json request) then (400, stored)
  else
    match get_json request with
    | None => (400, stored)
    | Some body =>
        if key_mismatch (x_api_key request) then (403, stored)
        else
          match body with
          | NotADict => (500, stored)
          | Dict field =>
              let new_trades :=
                match field with Some f => f | None => TradeList [] end in
              match new_trades with
              | NotAList => (400, stored)
              | TradeList l => (200, merge stored l)
              end
          end
    end.

End Dashboard.

(** ** Scraper.py: the target date, the index URL, the totals, the report *)

(** A [datetime] as the fields [strftime] prints. The source gets its dates
    from [datetime.now()]: the month is between 1 and 12, the day between
    1 and 31, and the year has four digits. *)
Record datetime : Type := mk_datetime {
  dt_year : nat;
  dt_month : nat;
  dt_day : nat
}.

Definition digit (n : nat) : ascii := ascii_of_nat (48 + n mod 10).

(** [%m] and [%d]: two digits, zero-padded. *)
Definition two_digits (n : nat) : pystr := [digit (n / 10); digit n].

(** [%Y] for a year of four digits. *)
Definition four_digits (n : nat) : pystr :=
  [digit (n / 1000); digit (n / 100); digit (n / 10); digit n].

(** [(date.month - 1) // 3 + 1] *)
Definition quarter_of (date : datetime) : nat := (dt_month date - 1) / 3 + 1.

Definition get_edgar_archive_date_url (date : datetime) : pystr :=
  let year := four_digits (dt_year date) in
  let quarter := ("QTR"%string : pystr) ++ [digit (quarter_of date)] in
  let date_path :=
    four_digits (dt_year date) ++ two_digits (dt_month date)
    ++ two_digits (dt_day date) in
  ("https://www.sec.gov/Archives/edgar/daily-index/"%string : pystr)
  ++ year ++ ("/"%string : pystr) ++ quarter
  ++ ("/master."%string : pystr) ++ date_path ++ (".idx"%string : pystr).

(** The dates [datetime] can hold with a year of four digits. *)
Definition valid_date (d : datetime) : Prop :=
  1000 <= dt_year d < 10 * 1000 /\ 1 <= dt_month d <= 12 /\ 1 <= dt_day d <= 31.

(** [d.weekday()] of the day whose proleptic Gregorian ordinal is [d]
    (day 1 is Monday 0001-01-01): 0 is Monday, 6 is Sunday. *)
Definition weekday (ordinal : Z) : Z := ((ordinal + 6) mod 7)%Z.

(** The [while True] loop of [get_last_business_day] on the ordinal of
    [check_date]; [fuel] bounds the number of turns. *)
Fixpoint last_business_day_from (fuel : nat) (check_date : Z) : option Z :=
  match fuel with
  | O => None
  | S fuel' =>
      if (weekday check_date <? 5)%Z then Some check_date
      else last_business_day_from fuel' (check_date - 1)%Z
  end.

(** [get_last_business_day], given the ordinal of today. *)
Definition get_last_business_day (fuel : nat) (current_date : Z) : option Z :=
  last_business_day_from fuel (current_date - 1)%Z.

Definition MEGA_TRADE_THRESHOLD : float := 10000000%float.

(** A mega trade: a value trade at or above the threshold. *)
Definition is_mega_trade (trade : Trade) : bool :=
  is_value_trade trade && PrimFloat.leb MEGA_TRADE_THRESHOLD (value trade).

(** The variables [main] accumulates over the trades. *)
Record Totals : Type := mkTotals {
  all_trades : list Trade;
  transaction_code_counts : list (pystr * nat);
  total_value_all : float;
  total_trades_count_all : nat;
  mega_trade_total_value : float;
  mega_trade_count : nat
}.

(** [counts[code] += 1] on a [defaultdict(int)], kept in insertion order. *)
Fixpoint increment (code : pystr) (counts : list (pystr * nat))
  : list (pystr * nat) :=
  match counts with
  | [] => [(code, 1)]
  | (c, n) :: rest =>
      if Py.eqb c code then (c, S n) :: rest
      else (c, n) :: increment code rest
  end.

(** [counts.get(code, 0)] *)
Fixpoint count_for (code : pystr) (counts : list (pystr * nat)) : nat :=
  match counts with
  | [] => 0
  | (c, n) :: rest => if Py.eqb c code then n else count_for code rest
  end.

(** The body of the inner loop of [main], for one trade. *)
Definition tally (t : Totals) (trade : Trade) : Totals :=
  let is_mega :=
    is_value_trade trade && PrimFloat.leb MEGA_TRADE_THRESHOLD (value trade) in
  mkTotals
    (all_trades t ++ [trade])
    (increment (code trade) (transaction_code_counts t))
    (if is_value_trade trade
     then PrimFloat.add (total_value_all t) (value trade)
     else total_value_all t)
    (S (total_trades_count_all t))
    (if is_mega
     then PrimFloat.add (mega_trade_total_value t) (value trade)
     else mega_trade_total_value t)
    (if is_mega then S (mega_trade_count t) else mega_trade_count t).

Definition initial_totals : Totals := mkTotals [] [] 0 0 0 0.

Section Main.

Variable py_float : pystr -> option float.
Variable http_get : pystr -> option pystr.
Variable fromstring : pystr -> option ET.Element.

(** The loop of [main] over the URLs: each filing is parsed and its trades
    are tallied. *)
Fixpoint process_urls (urls : list pystr) (t : Totals) : outcome Totals :=
  match urls with
  | [] => Return t
  | url :: rest =>
      trades <- parse_form4_url py_float http_get fromstring url ;;
      process_urls rest (fold_left tally trades t)
  end.

(** [main] up to the upload: the filings of the index at [index_url]. *)
Definition collect (index_url : pystr) : outcome Totals :=
  process_urls (get_form4_urls_from_index http_get index_url) initial_totals.

End Main.

(** [s.ljust(width)] and [s.rjust(width)] *)
Definition ljust (width : nat) (s : pystr) : pystr :=
  s ++ repeat " "%char (width - List.length s).

Definition rjust (width : nat) (s : pystr) : pystr :=
  repeat " "%char (width - List.length s) ++ s.

Section Report.

(** The format specifications [:,.0f] and [:,.2f] on a float. *)
Variable format_0f : float -> pystr.
Variable format_2f : float -> pystr.

Definition format_report_row (trade : Trade) : pystr :=
  let date := ljust 10 (date trade) in
  let code := ljust 4 (code trade) in
  let ticker := ljust 8 (ticker trade) in
  let shares := rjust 12 (format_0f (shares trade)) in
  let price_str :=
    if PrimFloat.ltb 0 (price trade)
    then ("$"%string : pystr) ++ format_2f (price trade)
    else ("N/A"%string : pystr) in
  let price_formatted := rjust 14 price_str in
  let value_formatted :=
    rjust 20 (("$"%string : pystr) ++ format_2f (value trade)) in
  let company_name_truncated := ljust 25 (firstn 25 (company_name trade)) in
  let filer_name_truncated := ljust 25 (firstn 25 (filer trade)) in
  let person_title_truncated := ljust 20 (firstn 20 (person_title trade)) in
  let sp : pystr := " "%string in
  date ++ sp ++ code ++ sp ++ ticker ++ sp ++ shares ++ sp
  ++ price_formatted ++ sp ++ value_formatted ++ sp
  ++ company_name_truncated ++ sp ++ filer_name_truncated ++ sp
  ++ person_title_truncated.

End Report.

(** ** dashboard.py: the cleanup endpoint and the page *)

(** What [clean_and_convert_value] may be given: [None], a string or a
    float. *)
Inductive pyobj : Type := ObjNone | ObjStr (s : pystr) | ObjFloat (f : float).

(** [a < b] on strings: the order of the code points, a proper prefix
    first. *)
Fixpoint str_ltb (a b : pystr) : bool :=
  match a, b with
  | _, [] => false
  | [], _ :: _ => true
  | x :: a', y :: b' =>
      (Py.code x <? Py.code y)
      || ((Py.code x =? Py.code y) && str_ltb a' b')
  end.

(** [max(l)] on a list of strings: the first of the greatest, [None] on an
    empty list (where the builtin raises). *)
Definition py_max (l : list pystr) : option pystr :=
  match l with
  | [] => None
  | x :: rest => Some (fold_left (fun m y => if str_ltb m y then y else m) rest x)
  end.

(** The order [get_sort_link] puts in the link of [column_name]. *)
Definition new_order (column_name current_sort_by current_order : pystr) : pystr :=
  if Py.eqb column_name current_sort_by then
    if Py.eqb current_order "desc"%string
    then ("asc"%string : pystr) else ("desc"%string : pystr)
  else ("desc"%string : pystr).

(** [reverse_sort] of [dashboard]. *)
Definition reverse_sort (sort_order : pystr) : bool :=
  Py.eqb sort_order "desc"%string.

Module Dash.

(** [MIN_TRADE_VALUE] of dashboard.py. *)
Definition MIN_TRADE_VALUE : float := 100000%float.

Section Page.

Variable py_str : float -> pystr.
Variable py_float : pystr -> option float.
Variable DASHBOARD_API_KEY : pystr.

(** [str(value_str)] where [clean_and_convert_value] takes it. *)
Definition str_of (v : pyobj) : pystr :=
  match v with
  | ObjNone => ("None"%string : pystr)
  | ObjStr s => s
  | ObjFloat f => py_str f
  end.

Definition clean_and_convert_value (value_str : pyobj) : float :=
  match value_str with
  | ObjNone => 0%float
  | _ =>
      let cleaned :=
        Py.strip (Py.remove_char "," (Py.remove_char "$" (str_of value_str))) in
      match py_float cleaned with
      | Some f => f
      | None => 0%float
      end
  end.

(** [filter_ticker] of [dashboard], from the query argument. *)
Definition filter_ticker_of (arg : pystr) : pystr := Py.strip (Py.upper arg).

(** [trades_to_display] of [dashboard] as it stands before the sort. *)
Definition trades_to_display (all_trades : list Trade) (arg : pystr)
  : list Trade :=
  let filter_ticker := filter_ticker_of arg in
  let by_value :=
    filter (fun trade =>
              PrimFloat.leb MIN_TRADE_VALUE
                (clean_and_convert_value (ObjFloat (value trade))))
           all_trades in
  match filter_ticker with
  | [] => by_value
  | _ :: _ =>
      filter (fun trade => Py.eqb (Py.upper (ticker trade)) filter_ticker)
             by_value
  end.

(** [latest_update_date] of [dashboard]. *)
Definition latest_update_date (all_trades : list Trade) (arg : pystr) : pystr :=
  match trades_to_display all_trades arg with
  | [] => ("N/A"%string : pystr)
  | _ :: _ =>
      match py_max (map date all_trades) with
      | Some d => d
      | None => ("N/A"%string : pystr)
      end
  end.

(** [clean_data] on the key received and the stored trades: the status
    code and the trades stored afterwards. *)
Definition clean_data (received_key : option pystr) (stored : list Trade)
  : nat * list Trade :=
  if key_mismatch DASHBOARD_API_KEY received_key then (403, stored)
  else
    match stored with
    | [] => (200, stored)
    | _ :: _ => (200, deduplicate_trades py_str stored)
    end.

End Page.

End Dash.

(** ** config.py *)

(** [a or b] on two values that are [None] or a string. *)
Definition py_or (a b : option pystr) : option pystr :=
  match a with
  | Some (_ :: _) => a
  | _ => b
  end.

(** The key [config.py] defines, [environ] standing for [os.environ.get]:
    [None] when the module raises [RuntimeError] instead. *)
Definition load_api_key (environ : pystr -> option pystr) : option pystr :=
  match py_or (environ ("DASHBOARD_API_KEY"%string : pystr))
              (environ ("DASHBOARD_PRIVATE_KEY"%string : pystr)) with
  | Some (c :: k) => Some (c :: k)
  | _ => None
  end.

(** ** Instances of the parameters, to run the embedding on examples *)

Fixpoint digits_value (acc : Z) (s : pystr) : option Z :=
  match s with
  | [] => Some acc
  | c :: s' =>
      let n := Py.code c in
      if (48 <=? n) && (n <=? 57)
      then digits_value (10 * acc + Z.of_nat (n - 48))%Z s'
      else None
  end.

(** [float()] on the strings made of decimal digits only (it agrees with
    the builtin on those below 2^63); every other string is refused. *)
Definition float_of_digits (s : pystr) : option float :=
  match s with
  | [] => None
  | _ :: _ =>
      option_map (fun z => PrimFloat.of_uint63 (Uint63.of_Z z)) (digits_value 0 s)
  end.

(** A stand-in for [str()] on floats: it prints the sign, the integer
    mantissa and the binary exponent, where the builtin prints the shortest
    decimal that reads back as the same float. *)
Definition str_of_float (f : float) : pystr :=
  let (m, e) := PrimFloat.frshiftexp f in
  let digits (n : Z) : pystr :=
    list_ascii_of_string (NilZero.string_of_int (Z.to_int n)) in
  (if PrimFloat.ltb f 0 then ("-"%string : pystr) else [])
  ++ digits (Uint63.to_Z (PrimFloat.normfr_mantissa m))
  ++ ("p"%string : pystr) ++ digits (Uint63.to_Z e).

(** The integer a float is in magnitude, when it is whole and below
    10^16. *)
Definition whole_magnitude (f : float) : option Z :=
  let bounded (z : Z) : option Z :=
    if (z <? 10 ^ 16)%Z then Some z else None in
  match Prim2SF f with
  | S754_zero _ => Some 0%Z
  | S754_finite _ m e =>
      if (0 <=? e)%Z then bounded (Z.pos m * 2 ^ e)%Z
      else if (Z.pos m mod 2 ^ (- e) =? 0)%Z
           then bounded (Z.pos m / 2 ^ (- e))%Z
           else None
  | _ => None
  end.

(** [str()] on the whole floats below 10^16 in magnitude, which the
    builtin prints as the integer followed by [.0]; on the other floats
    this prints what [str_of_float] does. *)
Definition str_of_whole_float (f : float) : pystr :=
  match whole_magnitude f with
  | Some z =>
      (if PrimFloat.get_sign f then ("-"%string : pystr) else [])
      ++ list_ascii_of_string (NilZero.string_of_int (Z.to_int z))
      ++ (".0"%string : pystr)
  | None => str_of_float f
  end.

(** [float()] on an optional minus sign and decimal digits, followed or
    not by a point and one to fifteen digits, when the digits together
    make an integer below 2^53: the quotient of that integer by the power
    of ten, which the division rounds as the builtin does. Every other
    string is refused. *)
Definition float_of_decimal (s : pystr) : option float :=
  let (negative, body) :=
    match s with
    | c :: rest => if Ascii.eqb c "-" then (true, rest) else (false, s)
    | [] => (false, s)
    end in
  let quotient (int_part frac_part : pystr) : option float :=
    match int_part, digits_value 0 (int_part ++ frac_part) with
    | _ :: _, Some n =>
        if (n <? 2 ^ 53)%Z && (List.length frac_part <=? 15) then
          let q :=
            PrimFloat.div
              (PrimFloat.of_uint63 (Uint63.of_Z n))
              (PrimFloat.of_uint63
                 (Uint63.of_Z (10 ^ Z.of_nat (List.length frac_part)))) in
          Some (if negative then PrimFloat.opp q else q)
        else None
    | _, _ => None
    end in
  match Py.split "." body with
  | [int_part] => quotient int_part []
  | [int_part; frac_part] =>
      match frac_part with
      | [] => None
      | _ :: _ => quotient int_part frac_part
      end
  | _ => None
  end.

(** ** Sample documents *)

Definition leaf (tag text : string) : ET.Element :=
  ET.Elem tag (Some (text : pystr)) [].

Definition node (tag : string) (children : list ET.Element) : ET.Element :=
  ET.Elem tag None children.

(** A transaction with its date, code and share count; [price] is what the
    filing holds for the price per share. *)
Definition sample_transaction (code shares : string) (price : list ET.Element)
  : ET.Element :=
  node "nonDerivativeTransaction"
    ([ node "transactionDate" [leaf "value" "2024-01-02"];
       node "transactionCoding" [leaf "transactionCode" code];
       node "transactionAmounts"
         (node "transactionShares" [leaf "value" shares] :: price) ]).

Definition price_of (text : string) : list ET.Element :=
  [ node "transactionPricePerShare" [leaf "value" text] ].

(** A price element that carries a footnote and no value. *)
Definition price_without_value : list ET.Element :=
  [ node "transactionPricePerShare" [node "footnoteId" []] ].

Definition sample_filing (transactions : list ET.Element) : ET.Element :=
  node "ownershipDocument"
    ([ node "issuer"
         [leaf "issuerName" "Acme Corp"; leaf "issuerTradingSymbol" "acme"];
       node "reportingOwner"
         [leaf "rptOwnerName" "Doe John"; leaf "rptOwnerTitle" "CEO"] ]
     ++ transactions).

Definition sample_text : pystr :=
  "<SEC-DOCUMENT> <ownershipDocument> </ownershipDocument>"%string.

(** The trade [parse_form4_url] builds from
    [sample_transaction code shares] under [sample_filing]. *)
Definition sample_trade (code : string) (shares price : float) (is_value : bool)
  : Trade :=
  mkTrade ("2024-01-02"%string : pystr) (code : pystr) ("ACME"%string : pystr)
          shares price (PrimFloat.mul shares price)
          ("Acme Corp"%string : pystr) ("Doe John"%string : pystr)
          ("CEO"%string : pystr) is_value.

(** The download and the tree parser of a run on one fixed document. *)
Definition serve (xml_text : pystr) : pystr -> option pystr :=
  fun _ => Some xml_text.

Definition parsed_as (root : ET.Element) : pystr -> option ET.Element :=
  fun _ => Some root.

(** A filing whose one transaction, an exercise of 500 shares, has no
    price element, and the metadata of the sample filings. *)
Definition exercise_without_price : ET.Element :=
  sample_filing [ sample_transaction "m" "500" [] ].

Definition sample_metadata : Metadata :=
  mkMetadata ("Acme Corp"%string : pystr) ("ACME"%string : pystr)
             ("Doe John"%string : pystr) ("CEO"%string : pystr).

(** A filing of two transactions: an exercise with its price element, then
    a purchase that has none. *)
Definition second_transaction_fails : ET.Element :=
  sample_filing [ sample_transaction "m" "500" price_without_value;
                  sample_transaction "p" "500" [] ].

(** Two lines of a daily index: a Form 4 and an annual report. *)
Definition sample_index : pystr :=
  "1|ACME|4|2024-01-02|edgar/data/1/a.txt
2|EMCA|10-K|2024-01-02|edgar/data/2/b.txt
"%string.

(** A Form 4 line with a sixth field. *)
Definition six_field_line : pystr :=
  "1|ACME|4|2024-01-02|edgar/data/1/a.txt|x"%string.

(** A filing that names its issuer twice. *)
Definition two_issuer_filing : ET.Element :=
  node "ownershipDocument"
    [ leaf "issuerName" "First Corp";
      leaf "issuerName" "Second Corp";
      leaf "rptOwnerTitle" "CEO" ].

(** A purchase of a million shares at 5: another key, a value of five
    million. *)
Definition purchase_trade : Trade := sample_trade "P" 1000000 5 true.

(** A purchase of the same size in the shares of another issuer. *)
Definition other_issuer_trade : Trade :=
  mkTrade (date purchase_trade) (code purchase_trade) ("EMCA"%string : pystr)
          (shares purchase_trade) (price purchase_trade) (value purchase_trade)
          ("Emca Inc"%string : pystr) (filer purchase_trade)
          (person_title purchase_trade) (is_value_trade purchase_trade).

(** A request that is not JSON and carries no key. *)
Definition plain_request : Request := mkRequest false None None.

(** A stored trade, and an uploaded one with the same key under another
    company name. *)
Definition stored_trade : Trade := sample_trade "M" 500 0 false.


(** A site that serves the sample index at ["index"] and one filing, a
    large purchase and an exercise, everywhere else. *)
Definition sample_site : pystr -> option pystr :=
  fun url =>
    if Py.eqb url ("index"%string : pystr) then Some sample_index
    else Some sample_text.

Definition two_trade_filing : ET.Element :=
  sample_filing [ sample_transaction "p" "4000000" (price_of "5");
                  sample_transaction "m" "500" price_without_value ].

(** A [float()] that reads every text as 200000.0, to show a trade on the
    page whatever the stand-in for [str()] prints. *)
Definition reads_200000 : pystr -> option float := fun _ => Some 200000%float.

Example strip_ex : Py.strip " 1,000
 "%string = "1,000"%string.
Proof. reflexivity. Qed.

Example split_ex :
  Py.split "|" "a|b|4|d|e"%string
  = [("a"%string : pystr); ("b"%string : pystr); ("4"%string : pystr);
     ("d"%string : pystr); ("e"%string : pystr)].
Proof. reflexivity. Qed.

Example sub_decl_ex :
  Py.sub_decl "<?XML version='1.0'?><a>"%string = "<a>"%string.
Proof. reflexivity. Qed.

Example float_ex : PrimFloat.mul 1000%float 25.5%float = 25500%float.
Proof. reflexivity. Qed.

(** [str.upper] on a sharp s (223) and on an e with an acute accent
    (233). *)
Example upper_ex :
  Py.upper (ascii_of_nat 223 :: ("nc"%string : pystr)) = ("SSNC"%string : pystr)
  /\ Py.upper (("caf"%string : pystr) ++ [ascii_of_nat 233])
     = ("CAF"%string : pystr) ++ [ascii_of_nat 201].
Proof. split; reflexivity. Qed.

(** * Properties *)

(** ** Python strings and membership *)

Lemma Py_eqb_eq (s t : pystr) : Py.eqb s t = true <-> s = t.
Proof.
  unfold Py.eqb. destruct (list_eq_dec ascii_dec s t); split; congruence.
Qed.

Lemma py_in_In (x : pystr) (l : list pystr) : py_in x l = true <-> In x l.
Proof.
  unfold py_in. rewrite existsb_exists. split.
  - intros (y & Hy & E). apply Py_eqb_eq in E. now subst.
  - intros H. exists x. split; [assumption | now apply Py_eqb_eq].
Qed.

(** ** The index filter *)

Lemma index_step_appends (acc : list pystr) (line : pystr) :
  index_step acc line = acc ++ index_step [] line.
Proof.
  unfold index_step.
  destruct (_ && _); [|now rewrite app_nil_r].
  destruct (_ =? 5); [reflexivity | now rewrite app_nil_r].
Qed.

Lemma fold_index_step (lines : list pystr) :
  forall acc, fold_left index_step lines acc = acc ++ flat_map (index_step []) lines.
Proof.
  induction lines as [|line rest IH]; intros acc; simpl.
  - now rewrite app_nil_r.
  - rewrite IH, index_step_appends, <- app_assoc. reflexivity.
Qed.

(** A line yields the URL of its fifth field exactly when it splits into
    five fields with ["4"] as the third. *)
Lemma index_step_five_fields (line u : pystr) :
  index_step [] line = [u] <->
  exists f0 f1 f3 f4,
    Py.split "|" line = [f0; f1; ("4"%string : pystr); f3; f4]
    /\ u = ("https://www.sec.gov/Archives/"%string : pystr) ++ f4.
Proof.
  unfold index_step.
  destruct (Py.split "|" line) as [|f0 [|f1 [|f2 [|f3 [|f4 [|f5 rest]]]]]];
    cbn [List.length Nat.leb Nat.eqb andb nth app];
    try (split; [discriminate | intros (? & ? & ? & ? & E & _); discriminate E]).
  - destruct (Py.eqb f2 "4"%string) eqn:E;
      (split; [discriminate | intros (? & ? & ? & ? & E' & _); discriminate E']).
  - destruct (Py.eqb f2 "4"%string) eqn:E;
      (split; [discriminate | intros (? & ? & ? & ? & E' & _); discriminate E']).
  - destruct (Py.eqb f2 "4"%string) eqn:E.
    + apply Py_eqb_eq in E. subst f2. split.
      * intros H. injection H as <-. now exists f0, f1, f3, f4.
      * intros (? & ? & ? & ? & E' & ->). now injection E' as _ _ _ <-.
    + split; [discriminate|].
      intros (? & ? & ? & ? & E' & _). injection E' as _ _ -> _ _.
      assert (Py.eqb ("4"%string : pystr) ("4"%string : pystr) = true)
        by now apply Py_eqb_eq.
      congruence.
  - destruct (Py.eqb f2 "4"%string) eqn:E;
      (split; [discriminate | intros (? & ? & ? & ? & E' & _); discriminate E']).
Qed.

Lemma index_step_other_lines (line : pystr) :
  (forall f0 f1 f3 f4,
      Py.split "|" line <> [f0; f1; ("4"%string : pystr); f3; f4]) ->
  index_step [] line = [].
Proof.
  intros H. unfold index_step.
  destruct (Py.split "|" line) as [|f0 [|f1 [|f2 [|f3 [|f4 [|f5 rest]]]]]];
    cbn [List.length Nat.leb Nat.eqb andb nth app]; try reflexivity;
    destruct (Py.eqb f2 "4"%string) eqn:E; try reflexivity.
  apply Py_eqb_eq in E. subst f2. now destruct (H f0 f1 f3 f4).
Qed.

(** C6 (amended). The URLs are those of the qualifying lines, in index
    order; a line qualifies exactly when it has five pipe-delimited fields
    of which the third is ["4"], its URL being the archive prefix followed
    by the fifth field; every other line yields nothing. *)
Theorem index_filtering (index_text : pystr) :
  form4_urls_of_index index_text
  = flat_map (index_step []) (Py.splitlines index_text)
  /\ (forall http_get index_url,
         http_get index_url = Some index_text ->
         get_form4_urls_from_index http_get index_url
         = flat_map (index_step []) (Py.splitlines index_text))
  /\ (forall line u,
         index_step [] line = [u] <->
         exists f0 f1 f3 f4,
           Py.split "|" line = [f0; f1; ("4"%string : pystr); f3; f4]
           /\ u = ("https://www.sec.gov/Archives/"%string : pystr) ++ f4)
  /\ (forall line,
         (forall f0 f1 f3 f4,
             Py.split "|" line <> [f0; f1; ("4"%string : pystr); f3; f4]) ->
         index_step [] line = []).
Proof.
  assert (H : form4_urls_of_index index_text
              = flat_map (index_step []) (Py.splitlines index_text)).
  { unfold form4_urls_of_index. now rewrite fold_index_step. }
  split; [exact H|]. split; [|split].
  - intros http_get index_url Hget. unfold get_form4_urls_from_index.
    now rewrite Hget.
  - apply index_step_five_fields.
  - apply index_step_other_lines.
Qed.

(** C6 on the sample index: one URL, built from the path of the Form 4
    line. *)
Lemma index_filtering_witness :
  form4_urls_of_index sample_index
  = [("https://www.sec.gov/Archives/edgar/data/1/a.txt"%string : pystr)]
  /\ index_step [] ("2|EMCA|10-K|2024-01-02|edgar/data/2/b.txt"%string : pystr) = [].
Proof.
  destruct (index_filtering sample_index) as (Hall & _ & Hyes & Hno). split.
  - rewrite Hall. vm_compute. reflexivity.
  - apply Hno. intros f0 f1 f3 f4. vm_compute. discriminate.
Defined.

(** C6 as the claim states it fails: this line has six fields, hence at
    least five, and ["4"] as its third, and no URL comes out of it. *)
Lemma six_fields_yield_nothing :
  5 <= List.length (Py.split "|" six_field_line)
  /\ nth 2 (Py.split "|" six_field_line) [] = ("4"%string : pystr)
  /\ form4_urls_of_index six_field_line = [].
Proof. vm_compute. repeat split. lia. Qed.

(** ** The sanitizer *)

Lemma match_ci_prefix (pat s : pystr) :
  Py.match_ci pat s = true <->
  exists m post, s = m ++ post /\ map Py.lower_char m = map Py.lower_char pat.
Proof.
  revert s. induction pat as [|a pat IH]; intros s; simpl.
  - split; [|reflexivity]. intros _. now exists [], s.
  - destruct s as [|c s].
    + split; [discriminate|]. intros (m & post & E & Hm).
      destruct m; [discriminate Hm | discriminate E].
    + rewrite andb_true_iff, Ascii.eqb_eq, IH. split.
      * intros (Hc & m & post & -> & Hm). exists (c :: m), post.
        split; [reflexivity|]. simpl. now rewrite Hc, Hm.
      * intros (m & post & E & Hm). destruct m as [|c' m]; [discriminate Hm|].
        simpl in E, Hm. injection E as -> ->. injection Hm as Hc Hm.
        split; [assumption|]. now exists m, post.
Qed.

(** [search_ci] returns the start of the leftmost match. *)
Lemma search_ci_leftmost (pat : pystr) :
  forall (s : pystr) (i : nat),
    Py.search_ci pat s = Some i <->
    i <= List.length s
    /\ Py.match_ci pat (skipn i s) = true
    /\ (forall j, j < i -> Py.match_ci pat (skipn j s) = false).
Proof.
  induction s as [|c s IH]; intros i.
  - cbn [Py.search_ci]. destruct (Py.match_ci pat []) eqn:E.
    + split.
      * intros H. injection H as <-. repeat split; [lia | assumption | lia].
      * intros (Hi & _ & _). simpl in Hi. now replace i with 0 by lia.
    + split; [discriminate|]. intros (Hi & Hm & _). simpl in Hi.
      replace i with 0 in Hm by lia. simpl in Hm. congruence.
  - cbn [Py.search_ci]. destruct (Py.match_ci pat (c :: s)) eqn:E.
    + split.
      * intros H. injection H as <-. repeat split; [simpl; lia | assumption | lia].
      * intros (_ & _ & Hmin). destruct i as [|i]; [reflexivity|].
        specialize (Hmin 0 ltac:(lia)). simpl in Hmin. congruence.
    + destruct (Py.search_ci pat s) as [k|] eqn:Hs; cbn [option_map].
      * destruct (proj1 (IH k) eq_refl) as (Hk & Hm & Hmin). split.
        -- intros H. injection H as <-. repeat split; [simpl; lia | assumption |].
           intros [|j] Hj; [assumption|]. apply Hmin. lia.
        -- intros (Hi & Hm' & Hmin'). destruct i as [|i]; [simpl in Hm'; congruence|].
           f_equal. simpl in Hi, Hm'.
           assert (Hi' : Some k = Some i).
           { apply IH. repeat split; [lia | assumption |].
             intros j Hj. apply (Hmin' (S j)). lia. }
           congruence.
      * split; [discriminate|]. intros (Hi & Hm' & Hmin').
        destruct i as [|i]; [simpl in Hm'; congruence|]. simpl in Hi, Hm'.
        assert (Hi' : None = Some i).
        { apply IH. repeat split; [lia | assumption |].
          intros j Hj. apply (Hmin' (S j)). lia. }
        congruence.
Qed.

Lemma occurs_ci_at (pat s : pystr) :
  occurs_ci pat s <->
  exists j, j <= List.length s /\ Py.match_ci pat (skipn j s) = true.
Proof.
  split.
  - intros (pre & m & post & -> & Hm). exists (List.length pre). split.
    + rewrite length_app. lia.
    + rewrite skipn_app, skipn_all, Nat.sub_diag. simpl.
      apply match_ci_prefix. now exists m, post.
  - intros (j & Hj & Hm). apply match_ci_prefix in Hm.
    destruct Hm as (m & post & E & Hm). exists (firstn j s), m, post.
    split; [|assumption]. now rewrite <- E, firstn_skipn.
Qed.

Lemma bounded_match_dec (pat s : pystr) (n : nat) :
  (exists k, k < n /\ Py.match_ci pat (skipn k s) = true)
  \/ (forall k, k < n -> Py.match_ci pat (skipn k s) = false).
Proof.
  induction n as [|n [(k & Hk & Hm) | Hnone]].
  - right. intros k Hk. lia.
  - left. exists k. split; [lia | assumption].
  - destruct (Py.match_ci pat (skipn n s)) eqn:E.
    + left. exists n. split; [lia | assumption].
    + right. intros k Hk. destruct (Nat.eq_dec k n) as [->|Hne]; [assumption|].
      apply Hnone. lia.
Qed.

(** An occurrence has a leftmost one. *)
Lemma leftmost_match (pat s : pystr) :
  forall n,
    (exists j, j < n /\ Py.match_ci pat (skipn j s) = true) ->
    exists i, i < n /\ Py.match_ci pat (skipn i s) = true
              /\ forall j, j < i -> Py.match_ci pat (skipn j s) = false.
Proof.
  induction n as [|n IH]; intros (j & Hj & Hm); [lia|].
  destruct (bounded_match_dec pat s n) as [Hsome | Hnone].
  - destruct (IH Hsome) as (i & Hi & H1 & H2).
    exists i. repeat split; [lia | assumption | assumption].
  - destruct (Nat.eq_dec j n) as [->|Hne].
    + exists n. repeat split; [lia | assumption | assumption].
    + rewrite Hnone in Hm by lia. discriminate.
Qed.

Lemma search_ci_None (pat s : pystr) :
  Py.search_ci pat s = None <-> ~ occurs_ci pat s.
Proof.
  rewrite occurs_ci_at. split.
  - intros Hnone (j & Hj & Hm).
    destruct (@leftmost_match pat s (S (List.length s))) as (i & Hi & H1 & H2).
    { exists j. split; [lia | assumption]. }
    assert (Py.search_ci pat s = Some i)
      by (apply search_ci_leftmost; repeat split; [lia | assumption | assumption]).
    congruence.
  - intros Hno. destruct (Py.search_ci pat s) as [i|] eqn:E; [|reflexivity].
    apply search_ci_leftmost in E. destruct E as (Hi & Hm & _).
    exfalso. apply Hno. now exists i.
Qed.

(** *** The removal of the declarations *)

(** After its opening, the declaration pattern matches up to the first
    ["?>"] when no [">"] stands before it. *)
Lemma match_decl_tail_closes (body r : pystr) :
  ~ In ">"%char body ->
  Py.match_decl_tail (body ++ ("?>"%string : pystr) ++ r)
  = Some (List.length body + 2).
Proof.
  change ("?>"%string : pystr) with ["?"%char; ">"%char].
  induction body as [|c body IH]; intros Hno.
  - destruct r; reflexivity.
  - cbn [app Py.match_decl_tail].
    destruct (Ascii.eqb c ">") eqn:E.
    + apply Ascii.eqb_eq in E. exfalso. apply Hno. now left.
    + cbn [app] in IH. rewrite IH; [reflexivity|].
      intros H. apply Hno. now right.
Qed.

Lemma declaration_head (d : pystr) :
  is_declaration d ->
  exists c d', d = c :: d' /\ Py.lower_char c = "<"%char.
Proof.
  intros (m & body & -> & Hm & _).
  destruct m as [|c m]; [discriminate Hm|].
  exists c, (m ++ body ++ ("?>"%string : pystr)). split; [reflexivity|].
  now injection Hm.
Qed.

Lemma match_decl_declaration (d r : pystr) :
  is_declaration d -> Py.match_decl (d ++ r) = Some (List.length d).
Proof.
  intros (m & body & -> & Hm & Hno). unfold Py.match_decl.
  assert (Hlen : List.length m = 5).
  { apply (f_equal (@List.length ascii)) in Hm. now rewrite !length_map in Hm. }
  rewrite <- !app_assoc.
  replace (Py.match_ci ("<?xml"%string : pystr)
             (m ++ body ++ ("?>"%string : pystr) ++ r)) with true
    by (symmetry; apply match_ci_prefix; eauto).
  rewrite skipn_app, skipn_all2 by lia.
  replace (5 - List.length m) with 0 by lia. cbn [skipn app].
  rewrite match_decl_tail_closes by assumption. cbn [option_map].
  rewrite !length_app, Hlen. reflexivity.
Qed.

Lemma sub_decl_from_skips (x r : pystr) :
  Py.sub_decl_from (List.length x) (x ++ r) = Py.sub_decl_from 0 r.
Proof. induction x as [|c x IH]; [reflexivity | exact IH]. Qed.

(** A declaration at the head of a text is dropped. *)
Lemma sub_decl_declaration (d r : pystr) :
  is_declaration d -> Py.sub_decl_from 0 (d ++ r) = Py.sub_decl_from 0 r.
Proof.
  intros Hd. pose proof (match_decl_declaration r Hd) as Hm.
  destruct (declaration_head Hd) as (c & d' & -> & _).
  cbn [app Py.sub_decl_from]. cbn [app] in Hm. rewrite Hm.
  cbn [List.length]. rewrite Nat.sub_1_r. cbn [Nat.pred].
  apply sub_decl_from_skips.
Qed.

(** A match of ["<?xml"] that starts in [a] ends in [a] when what follows
    [a] is nothing, or begins like ["<"]. *)
Lemma match_ci_no_crossing (c : ascii) (a r : pystr) :
  r = [] \/ (exists z r', r = z :: r' /\ Py.lower_char z = "<"%char) ->
  Py.match_ci ("<?xml"%string : pystr) ((c :: a) ++ r) = true ->
  Py.match_ci ("<?xml"%string : pystr) (c :: a) = true.
Proof.
  change ("<?xml"%string : pystr)
    with ["<"%char; "?"%char; "x"%char; "m"%char; "l"%char].
  intros Hr.
  destruct a as [|c2 [|c3 [|c4 [|c5 a]]]];
    destruct Hr as [-> | (z & r' & -> & Hz)];
    cbn [app Py.match_ci]; try rewrite Hz;
    rewrite ?andb_true_iff, ?andb_false_r; intros H;
    try discriminate H; try (now intuition discriminate); assumption.
Qed.

Lemma occurs_ci_tail (pat : pystr) (c : ascii) (s : pystr) :
  occurs_ci pat s -> occurs_ci pat (c :: s).
Proof.
  intros (pre & m & post & -> & Hm). now exists (c :: pre), m, post.
Qed.

(** A text that holds no ["<?xml"] is kept as it is. *)
Lemma sub_decl_plain (a r : pystr) :
  ~ occurs_ci ("<?xml"%string : pystr) a ->
  r = [] \/ (exists z r', r = z :: r' /\ Py.lower_char z = "<"%char) ->
  Py.sub_decl_from 0 (a ++ r) = a ++ Py.sub_decl_from 0 r.
Proof.
  intros Ha Hr. induction a as [|c a IH]; [reflexivity|].
  assert (Hnone : Py.match_decl ((c :: a) ++ r) = None).
  { unfold Py.match_decl.
    destruct (Py.match_ci ("<?xml"%string : pystr) ((c :: a) ++ r)) eqn:E;
      [|reflexivity].
    exfalso. apply Ha. apply occurs_ci_at. exists 0. split; [simpl; lia|].
    now apply (@match_ci_no_crossing c a r). }
  cbn [app Py.sub_decl_from]. cbn [app] in Hnone. rewrite Hnone.
  f_equal. apply IH. intros H. apply Ha. now apply occurs_ci_tail.
Qed.

(** The substitution removes the declarations of a text and nothing
    else. *)
Lemma sub_decl_removes (segments : list (pystr * pystr)) :
  forall a,
    ~ occurs_ci ("<?xml"%string : pystr) a ->
    (forall d x, In (d, x) segments ->
                 is_declaration d /\ ~ occurs_ci ("<?xml"%string : pystr) x) ->
    Py.sub_decl (with_declarations a segments) = without_declarations a segments.
Proof.
  unfold Py.sub_decl.
  induction segments as [|[d x] rest IH]; intros a Ha Hseg.
  - cbn [with_declarations without_declarations].
    rewrite <- (app_nil_r a) at 1. rewrite sub_decl_plain by auto.
    cbn [Py.sub_decl_from]. apply app_nil_r.
  - cbn [with_declarations without_declarations].
    destruct (Hseg d x (or_introl eq_refl)) as (Hd & Hx).
    rewrite sub_decl_plain.
    + rewrite sub_decl_declaration by assumption. f_equal.
      apply IH; [assumption|]. intros d' x' Hin. apply Hseg. now right.
    + assumption.
    + right. destruct (declaration_head Hd) as (c & d' & -> & Hc).
      now exists c, (d' ++ with_declarations x rest).
Qed.

(** C7. [clean_and_extract_xml] raises exactly when the text holds no
    occurrence of the opening marker, in any case of its letters, and what
    it raises is the [ValueError] of a malformed document. When the text
    splits at its first opening marker into [before] and [rest] and holds
    no closing marker, the result is [rest] with every XML declaration
    removed and the surrounding whitespace stripped: when [rest] is the
    text [a], which holds no ["<?xml"], followed by declarations, each
    with a text after it that holds no ["<?xml"], the result is [a] and
    the texts after the declarations, stripped. *)
Theorem sanitizer_contract (xml_text : pystr) :
  ((exists e, clean_and_extract_xml xml_text = Raise e)
   <-> ~ occurs_ci START_TAG xml_text)
  /\ (forall e, clean_and_extract_xml xml_text = Raise e -> e = ValueError)
  /\ (forall before rest,
         xml_text = before ++ rest ->
         Py.match_ci START_TAG rest = true ->
         (forall j, j < List.length before ->
                    Py.match_ci START_TAG (skipn j xml_text) = false) ->
         ~ occurs_ci END_TAG xml_text ->
         clean_and_extract_xml xml_text
         = Return (Py.strip (Py.sub_decl rest)))
  /\ (forall before a segments,
         xml_text = before ++ with_declarations a segments ->
         Py.match_ci START_TAG (with_declarations a segments) = true ->
         (forall j, j < List.length before ->
                    Py.match_ci START_TAG (skipn j xml_text) = false) ->
         ~ occurs_ci END_TAG xml_text ->
         ~ occurs_ci ("<?xml"%string : pystr) a ->
         (forall d x, In (d, x) segments ->
                      is_declaration d
                      /\ ~ occurs_ci ("<?xml"%string : pystr) x) ->
         clean_and_extract_xml xml_text
         = Return (Py.strip (without_declarations a segments))).
Proof.
  assert (Hslice : forall before rest,
             xml_text = before ++ rest ->
             Py.match_ci START_TAG rest = true ->
             (forall j, j < List.length before ->
                        Py.match_ci START_TAG (skipn j xml_text) = false) ->
             ~ occurs_ci END_TAG xml_text ->
             clean_and_extract_xml xml_text
             = Return (Py.strip (Py.sub_decl rest))).
  { intros before rest -> Hm Hfirst Hend.
    assert (Hs : Py.search_ci START_TAG (before ++ rest)
                 = Some (List.length before)).
    { apply search_ci_leftmost. repeat split.
      - rewrite length_app. lia.
      - now rewrite skipn_app, skipn_all, Nat.sub_diag.
      - assumption. }
    apply search_ci_None in Hend. unfold clean_and_extract_xml.
    rewrite Hs, Hend. now rewrite skipn_app, skipn_all, Nat.sub_diag. }
  split; [|split; [|split]].
  - rewrite <- search_ci_None. unfold clean_and_extract_xml.
    destruct (Py.search_ci START_TAG xml_text); split.
    + intros (e & H). discriminate H.
    + discriminate.
    + reflexivity.
    + intros _. now exists ValueError.
  - intros e. unfold clean_and_extract_xml.
    destruct (Py.search_ci START_TAG xml_text); [discriminate|].
    intros H. now injection H as <-.
  - exact Hslice.
  - intros before a segments E Hm Hfirst Hend Ha Hseg.
    rewrite (Hslice before _ E Hm Hfirst Hend).
    now rewrite sub_decl_removes.
Qed.

(** C7 on a document whose closing marker is missing and whose block
    holds two declarations. *)
Lemma sanitizer_contract_witness :
  clean_and_extract_xml
    ("<SEC> <OwnershipDocument><?XML version='1.0'?><a/><?xml?> "%string : pystr)
  = Return ("<OwnershipDocument><a/>"%string : pystr).
Proof.
  destruct (sanitizer_contract
              ("<SEC> <OwnershipDocument><?XML version='1.0'?><a/><?xml?> "%string
               : pystr))
    as (_ & _ & _ & H).
  rewrite (H ("<SEC> "%string : pystr)
             ("<OwnershipDocument>"%string : pystr)
             [ (("<?XML version='1.0'?>"%string : pystr), ("<a/>"%string : pystr));
               (("<?xml?>"%string : pystr), (" "%string : pystr)) ]).
  - vm_compute. reflexivity.
  - reflexivity.
  - reflexivity.
  - intros j Hj. vm_compute in Hj.
    do 6 (destruct j as [|j]; [reflexivity|]). lia.
  - rewrite <- search_ci_None. reflexivity.
  - rewrite <- search_ci_None. reflexivity.
  - intros d x [E | [E | []]]; injection E as <- <-;
      (split; [|rewrite <- search_ci_None; reflexivity]).
    + exists ("<?XML"%string : pystr), (" version='1.0'"%string : pystr).
      split; [reflexivity|]. split; [reflexivity|].
      vm_compute. intuition discriminate.
    + exists ("<?xml"%string : pystr), []. split; [reflexivity|].
      split; [reflexivity|]. intros [].
Defined.

(** ** The metadata scan *)

Lemma startswith_both (l : pystr) :
  forall p q,
    Py.startswith l p = true -> Py.startswith l q = true ->
    Py.startswith p q = true \/ Py.startswith q p = true.
Proof.
  induction l as [|c l IH]; intros [|a p] [|b q]; simpl; auto; try discriminate.
  rewrite !andb_true_iff, !Ascii.eqb_eq. intros (-> & Hp) (-> & Hq).
  destruct (IH p q Hp Hq); auto.
Qed.

(** Two of the four suffixes never end the same tag. *)
Ltac other_suffix H1 H2 :=
  let X := fresh in
  destruct (startswith_both _ _ _ H1 H2) as [X | X];
  vm_compute in X; discriminate X.

Ltac split_branches :=
  unfold metadata_step, matches;
  repeat match goal with
         | |- context [Py.endswith ?t ?s && ?b] =>
             let E := fresh "E" in destruct (Py.endswith t s) eqn:E; cbn [andb]
         end;
  try reflexivity;
  try match goal with |- context [ET.has_text ?e] => destruct (ET.has_text e) end;
  try reflexivity;
  match goal with
  | H1 : Py.endswith ?t ?a = true, H2 : Py.endswith ?t ?b = true |- _ =>
      unfold Py.endswith in H1, H2; other_suffix H1 H2
  end.

Lemma step_issuer_name (m : Metadata) (e : ET.Element) :
  issuer_name (metadata_step m e)
  = if matches "issuerName"%string e then Py.strip (ET.text_or_empty e)
    else issuer_name m.
Proof. split_branches. Qed.

Lemma step_issuer_ticker (m : Metadata) (e : ET.Element) :
  issuer_ticker (metadata_step m e)
  = if matches "issuerTradingSymbol"%string e
    then Py.upper (Py.strip (ET.text_or_empty e))
    else issuer_ticker m.
Proof. split_branches. Qed.

Lemma step_filer_name (m : Metadata) (e : ET.Element) :
  filer_name (metadata_step m e)
  = if matches "rptOwnerName"%string e then Py.strip (ET.text_or_empty e)
    else filer_name m.
Proof. split_branches. Qed.

Lemma step_filer_relationship (m : Metadata) (e : ET.Element) :
  filer_relationship (metadata_step m e)
  = if matches "rptOwnerTitle"%string e then Py.strip (ET.text_or_empty e)
    else filer_relationship m.
Proof. split_branches. Qed.

Section LastAssignment.

Variable field : Metadata -> pystr.
Variable assigned : ET.Element -> pystr.
Variable suffix : pystr.

Hypothesis step_field :
  forall m e,
    field (metadata_step m e)
    = if matches suffix e then assigned e else field m.

Lemma scan_keeps_field (l : list ET.Element) :
  forall m,
    Forall (fun x => matches suffix x = false) l ->
    field (fold_left metadata_step l m) = field m.
Proof.
  induction l as [|x l IH]; intros m H; simpl; [reflexivity|].
  inversion H as [|? ? Hx Hl]; subst.
  rewrite IH by assumption. now rewrite step_field, Hx.
Qed.

(** The field holds what the last passing element assigned. *)
Lemma scan_last_assignment (root e : ET.Element) :
  last_with_text suffix root e ->
  field (scan_metadata root) = assigned e.
Proof.
  intros (l1 & l2 & E & He & Hl2). unfold scan_metadata.
  rewrite E, fold_left_app. simpl.
  rewrite scan_keeps_field by assumption. now rewrite step_field, He.
Qed.

End LastAssignment.

Lemma extract_metadata_fields (root : ET.Element) (m : Metadata) :
  extract_metadata root = Return m ->
  issuer_name m = issuer_name (scan_metadata root)
  /\ issuer_ticker m = issuer_ticker (scan_metadata root)
  /\ filer_name m = filer_name (scan_metadata root)
  /\ (filer_relationship (scan_metadata root) <> ("N/A"%string : pystr) ->
      filer_relationship (scan_metadata root) <> [] ->
      filer_relationship m = filer_relationship (scan_metadata root)).
Proof.
  unfold extract_metadata.
  destruct (Py.eqb (filer_relationship (scan_metadata root)) "N/A"%string) eqn:E1;
    [|destruct (Py.eqb (filer_relationship (scan_metadata root)) []) eqn:E2];
    cbn [orb].
  - apply Py_eqb_eq in E1.
    destruct (infer_relationship root); cbn [bind]; [|discriminate].
    intros H. injection H as <-. cbn. intuition congruence.
  - apply Py_eqb_eq in E2.
    destruct (infer_relationship root); cbn [bind]; [|discriminate].
    intros H. injection H as <-. cbn. intuition congruence.
  - intros H. injection H as <-. auto.
Qed.

(** C8 (amended). Each of the four metadata fields comes from the last
    element in document order whose tag ends with its suffix and whose
    text is not empty: the issuer name, the ticker in upper case and the
    filer name always, the relationship unless that title strips to the
    empty string or to ["N/A"]. *)
Theorem metadata_last_occurrence (root : ET.Element) (m : Metadata) :
  extract_metadata root = Return m ->
  (forall e, last_with_text "issuerName"%string root e ->
             issuer_name m = Py.strip (ET.text_or_empty e))
  /\ (forall e, last_with_text "issuerTradingSymbol"%string root e ->
                issuer_ticker m = Py.upper (Py.strip (ET.text_or_empty e)))
  /\ (forall e, last_with_text "rptOwnerName"%string root e ->
                filer_name m = Py.strip (ET.text_or_empty e))
  /\ (forall e, last_with_text "rptOwnerTitle"%string root e ->
                Py.strip (ET.text_or_empty e) <> ("N/A"%string : pystr) ->
                Py.strip (ET.text_or_empty e) <> [] ->
                filer_relationship m = Py.strip (ET.text_or_empty e)).
Proof.
  intros H. apply extract_metadata_fields in H.
  destruct H as (Hn & Ht & Hf & Hr). repeat split.
  - intros e He. rewrite Hn.
    apply (scan_last_assignment _ _ step_issuer_name He).
  - intros e He. rewrite Ht.
    apply (scan_last_assignment _ _ step_issuer_ticker He).
  - intros e He. rewrite Hf.
    apply (scan_last_assignment _ _ step_filer_name He).
  - intros e He H1 H2.
    pose proof (scan_last_assignment _ _ step_filer_relationship He) as E.
    rewrite Hr; rewrite E; auto.
Qed.

(** C8 (amended) on the filing that names its issuer twice: the second
    name is the one kept. *)
Lemma metadata_last_occurrence_witness :
  issuer_name (mkMetadata ("Second Corp"%string : pystr) ("N/A"%string : pystr)
                          ("UNKNOWN"%string : pystr) ("CEO"%string : pystr))
  = Py.strip (ET.text_or_empty (leaf "issuerName" "Second Corp")).
Proof.
  refine (proj1 (@metadata_last_occurrence two_issuer_filing _ _) _ _).
  - vm_compute. reflexivity.
  - exists [two_issuer_filing; leaf "issuerName" "First Corp"],
           [leaf "rptOwnerTitle" "CEO"].
    split; [reflexivity|]. split; [reflexivity|].
    constructor; [reflexivity | constructor].
Defined.

(** C8 as the claim states it fails: the first element whose tag ends with
    [issuerName] reads "First Corp", and the issuer name extracted is
    "Second Corp". *)
Lemma later_issuer_name_wins :
  List.find (fun e => Py.endswith (ET.tag e) "issuerName"%string)
            (ET.iter two_issuer_filing)
  = Some (leaf "issuerName" "First Corp")
  /\ (exists m, extract_metadata two_issuer_filing = Return m
                /\ issuer_name m = ("Second Corp"%string : pystr))
  /\ ("Second Corp"%string : pystr)
     <> Py.strip (ET.text_or_empty (leaf "issuerName" "First Corp")).
Proof.
  split; [reflexivity|]. split.
  - eexists. split; [vm_compute; reflexivity | reflexivity].
  - vm_compute. discriminate.
Qed.

(** ** The extraction primitive and the transaction loop *)

Section ScraperFacts.

Variable py_float : pystr -> option float.
Variable http_get : pystr -> option pystr.
Variable fromstring : pystr -> option ET.Element.

Let extract := extract_value_via_iteration py_float.
Let step := process_transaction py_float.
Let loop := process_transactions py_float.
Let parse := parse_form4_url py_float http_get fromstring.

(** Without a container the primitive returns [None]; with one it returns
    a float. *)
Lemma extract_value_no_container (parent : ET.Element) (target : pystr) :
  List.find (fun e => Py.endswith (ET.tag e) target) (ET.iter parent) = None ->
  extract parent target = PyNone.
Proof.
  intros H. unfold extract, extract_value_via_iteration. now rewrite H.
Qed.

Lemma extract_value_with_container (parent c : ET.Element) (target : pystr) :
  List.find (fun e => Py.endswith (ET.tag e) target) (ET.iter parent) = Some c ->
  exists f, extract parent target = PyFloat f.
Proof.
  intros H. unfold extract, extract_value_via_iteration. rewrite H.
  destruct (List.find _ (ET.iter c)) as [v|].
  - destruct (Py.strip (ET.text_or_empty v)) as [|a w]; [now exists 0%float|].
    destruct (py_float _) as [f|]; eauto.
  - now exists 0%float.
Qed.

(** With a container, the result is 0.0 when no nested element whose tag
    ends with [value] has text, or when that text strips to nothing. *)
Lemma extract_value_no_nested_value (parent c : ET.Element) (target : pystr) :
  List.find (fun e => Py.endswith (ET.tag e) target) (ET.iter parent) = Some c ->
  List.find (fun e => Py.endswith (ET.tag e) "value"%string && ET.has_text e)
            (ET.iter c) = None ->
  extract parent target = PyFloat 0.
Proof.
  intros H1 H2. unfold extract, extract_value_via_iteration. now rewrite H1, H2.
Qed.

(** With a container and a nested value, the result is the float read from
    the text, stripped and without its commas, and 0.0 when [float()]
    refuses it. *)
Lemma extract_value_parsed (parent c v : ET.Element) (target : pystr) :
  List.find (fun e => Py.endswith (ET.tag e) target) (ET.iter parent) = Some c ->
  List.find (fun e => Py.endswith (ET.tag e) "value"%string && ET.has_text e)
            (ET.iter c) = Some v ->
  Py.strip (ET.text_or_empty v) <> [] ->
  extract parent target
  = match py_float (Py.strip (Py.remove_char ","
                                (Py.strip (ET.text_or_empty v)))) with
    | Some f => PyFloat f
    | None => PyFloat 0
    end.
Proof.
  intros H1 H2 H3. unfold extract, extract_value_via_iteration.
  rewrite H1, H2. now destruct (Py.strip (ET.text_or_empty v)).
Qed.

(** What a turn of the loop that appends a trade has established. *)
Lemma process_transaction_appends (m : Metadata) (tx : ET.Element) (t : Trade) :
  step m tx = Return (Some t) ->
  py_in (code t) TARGET_CODES = true
  /\ value t = PrimFloat.mul (shares t) (price t)
  /\ is_value_trade t = py_in (code t) VALUE_CODES
  /\ keep_trade t = true
  /\ extract tx "transactionShares"%string = PyFloat (shares t)
  /\ PrimFloat.eqb (shares t) 0 = false.
Proof.
  unfold step, process_transaction, extract.
  destruct (code_and_date tx) as [c d].
  destruct (py_in c TARGET_CODES) eqn:Hc; cbn [negb]; [|discriminate].
  destruct (extract_value_via_iteration py_float tx "transactionShares"%string)
    as [|s] eqn:Hs; cbn [is_zero].
  - destruct (extract_value_via_iteration py_float tx "transactionPricePerShare"%string);
      discriminate.
  - destruct (PrimFloat.eqb s 0) eqn:Hz; [discriminate|].
    destruct (extract_value_via_iteration py_float tx "transactionPricePerShare"%string)
      as [|p]; [discriminate|].
    cbv zeta.
    match goal with
    | |- (if keep_trade ?x then _ else _) = _ -> _ => destruct (keep_trade x) eqn:Hk
    end;
      [|discriminate].
    intros E. injection E as <-.
    cbn [code value shares price is_value_trade]. auto 10.
Qed.

(** The loop only ever appends, and every trade it appends comes from a
    turn that returned it. *)
Lemma process_transactions_invariant (P : Trade -> Prop) (m : Metadata) :
  forall (txs : list ET.Element) (acc : list Trade),
    (forall tx t, In tx txs -> step m tx = Return (Some t) -> P t) ->
    Forall P acc ->
    Forall P (fst (loop m txs acc)).
Proof.
  induction txs as [|tx rest IH]; intros acc Hstep Hacc; simpl; [assumption|].
  fold (step m tx). destruct (step m tx) as [[t|]|e] eqn:E; simpl.
  - apply IH.
    + intros tx' t' Hin. apply Hstep. now right.
    + apply Forall_app. split; [assumption|].
      constructor; [|constructor]. apply (Hstep tx t); [now left | assumption].
  - apply IH; [|assumption]. intros tx' t' Hin. apply Hstep. now right.
  - assumption.
Qed.

(** A loop that ends without an exception has appended every trade its
    turns returned, after the trades it started from. *)
Lemma process_transactions_complete (m : Metadata) :
  forall (txs : list ET.Element) (acc out : list Trade),
    loop m txs acc = (out, None) ->
    (forall t, In t acc -> In t out)
    /\ (forall tx t, In tx txs -> step m tx = Return (Some t) -> In t out).
Proof.
  induction txs as [|tx rest IH]; intros acc out; simpl.
  - intros E. injection E as <-. split; [auto | intros ? ? []].
  - fold (step m tx). destruct (step m tx) as [[t|]|e] eqn:E; [| |discriminate].
    + intros H. destruct (IH _ _ H) as (Hacc & Hrest). split.
      * intros t' Ht'. apply Hacc. apply in_or_app. now left.
      * intros tx' t' [<- | Hin] Hstep.
        -- replace t' with t by congruence.
           apply Hacc. apply in_or_app. right. now left.
        -- now apply (Hrest tx').
    + intros H. destruct (IH _ _ H) as (Hacc & Hrest). split; [assumption|].
      intros tx' t' [<- | Hin] Hstep; [congruence|]. now apply (Hrest tx').
Qed.

Lemma try_body_invariant (P : Trade -> Prop) (xml_text : pystr) :
  (forall m tx t, step m tx = Return (Some t) -> P t) ->
  Forall P (fst (try_body py_float fromstring xml_text)).
Proof.
  intros H. unfold try_body.
  destruct (clean_and_extract_xml xml_text) as [c|e]; [|constructor].
  destruct (fromstring c) as [root|]; [|constructor].
  destruct (extract_metadata root) as [m|e]; [|constructor].
  apply process_transactions_invariant; [|constructor].
  intros tx t _. apply H.
Qed.

(** Whatever ends the body of the [try], the call returns the list
    [trades] as the body left it. *)
Lemma parse_form4_url_returns (url xml_text : pystr) :
  http_get url = Some xml_text ->
  parse url = Return (fst (try_body py_float fromstring xml_text)).
Proof.
  intros H. unfold parse, parse_form4_url. rewrite H.
  destruct (try_body py_float fromstring xml_text) as [trades [[]|]]; reflexivity.
Qed.

Lemma parse_form4_url_invariant (P : Trade -> Prop) (url : pystr) (trades : list Trade) :
  (forall m tx t, step m tx = Return (Some t) -> P t) ->
  parse url = Return trades -> Forall P trades.
Proof.
  intros H. destruct (http_get url) as [xml|] eqn:Hget.
  - rewrite (parse_form4_url_returns Hget).
    intros E. injection E as <-. now apply try_body_invariant.
  - unfold parse, parse_form4_url. rewrite Hget.
    intros E. injection E as <-. constructor.
Qed.

Lemma keep_trade_true (t : Trade) :
  keep_trade t = true <->
  is_value_trade t = false \/ PrimFloat.leb MIN_TRADE_VALUE (value t) = true.
Proof.
  unfold keep_trade.
  destruct (is_value_trade t), (PrimFloat.leb MIN_TRADE_VALUE (value t));
    simpl; intuition congruence.
Qed.

(** A turn of the loop on a transaction whose code is a target code
    outside the value codes, with a non-zero share count and a price:
    the trade is appended whatever its value. *)
Lemma non_value_trade_appended (m : Metadata) (tx : ET.Element) (s p : float) :
  py_in (fst (code_and_date tx)) TARGET_CODES = true ->
  py_in (fst (code_and_date tx)) VALUE_CODES = false ->
  extract tx "transactionShares"%string = PyFloat s ->
  PrimFloat.eqb s 0 = false ->
  extract tx "transactionPricePerShare"%string = PyFloat p ->
  step m tx =
  Return (Some (mkTrade (snd (code_and_date tx)) (fst (code_and_date tx))
                        (issuer_ticker m) s p (PrimFloat.mul s p)
                        (issuer_name m) (filer_name m) (filer_relationship m)
                        false)).
Proof.
  unfold step, process_transaction, extract.
  destruct (code_and_date tx) as [c d]. cbn [fst snd].
  intros Hc Hv Hs Hz Hp. rewrite Hc, Hv, Hs, Hp. cbn [negb is_zero].
  rewrite Hz. reflexivity.
Qed.

Lemma zero_shares_skipped (m : Metadata) (tx : ET.Element) :
  is_zero (extract tx "transactionShares"%string) = true ->
  step m tx = Return None.
Proof.
  unfold step, process_transaction, extract.
  destruct (code_and_date tx) as [c d]. intros ->.
  now destruct (py_in c TARGET_CODES).
Qed.

(** C1 (the code departs from the claim). The container is absent from
    an empty transaction element: [extract_value_via_iteration] returns
    [None] there, where the claim has [0.0]. *)
Theorem extract_value_absent_container_is_None :
  extract_value_via_iteration py_float (node "nonDerivativeTransaction" [])
                              "transactionShares"%string = PyNone
  /\ PyNone <> PyFloat 0.
Proof. split; [reflexivity | discriminate]. Qed.

(** C4. Every trade returned by [parse_form4_url] has a code among the
    target codes P, S, M, X, V, a value that is the float product of its
    shares and price, and the flag [is_value_trade] set exactly when the
    code is P or S. *)
Theorem trade_postcondition (xml_url : pystr) (trades : list Trade) (t : Trade) :
  parse_form4_url py_float http_get fromstring xml_url = Return trades ->
  In t trades ->
  In (code t) TARGET_CODES
  /\ value t = PrimFloat.mul (shares t) (price t)
  /\ (is_value_trade t = true <-> In (code t) VALUE_CODES).
Proof.
  intros Hparse Hin.
  assert (Hall : Forall (fun t =>
            py_in (code t) TARGET_CODES = true
            /\ value t = PrimFloat.mul (shares t) (price t)
            /\ is_value_trade t = py_in (code t) VALUE_CODES) trades).
  { apply (parse_form4_url_invariant _ xml_url); [|exact Hparse].
    intros m tx t' H. apply process_transaction_appends in H. tauto. }
  rewrite Forall_forall in Hall. destruct (Hall t Hin) as (Hc & Hv & Hf).
  repeat split.
  - now apply py_in_In.
  - assumption.
  - rewrite Hf. apply py_in_In.
  - rewrite Hf. apply py_in_In.
Qed.

(** C5 (the code departs from the claim). An exercise of 500 shares
    whose transaction has no price element: the share count is read, the
    price comes back as [None], the product raises [TypeError], and
    [parse_form4_url] returns no trade, where the claim keeps every trade
    of code M, X or V. *)
Theorem exercise_without_price_is_dropped (f : float) :
  py_float ("500"%string : pystr) = Some f ->
  PrimFloat.eqb f 0 = false ->
  extract_value_via_iteration py_float (sample_transaction "m" "500" [])
                              "transactionShares"%string = PyFloat f
  /\ extract_value_via_iteration py_float (sample_transaction "m" "500" [])
                                 "transactionPricePerShare"%string = PyNone
  /\ process_transaction py_float sample_metadata
                         (sample_transaction "m" "500" []) = Raise TypeError
  /\ parse_form4_url py_float (serve sample_text)
                     (parsed_as exercise_without_price) [] = Return [].
Proof.
  intros Hf Hz.
  assert (Hs : extract_value_via_iteration py_float
                 (sample_transaction "m" "500" []) "transactionShares"%string
               = PyFloat f).
  { vm_compute. vm_compute in Hf. now rewrite Hf. }
  assert (Hp : extract_value_via_iteration py_float
                 (sample_transaction "m" "500" [])
                 "transactionPricePerShare"%string = PyNone)
    by (vm_compute; reflexivity).
  assert (Hstep : forall m,
             process_transaction py_float m (sample_transaction "m" "500" [])
             = Raise TypeError).
  { intros m. unfold process_transaction.
    replace (code_and_date (sample_transaction "m" "500" []))
      with (("M"%string : pystr), ("2024-01-02"%string : pystr))
      by (vm_compute; reflexivity).
    replace (py_in ("M"%string : pystr) TARGET_CODES) with true
      by (vm_compute; reflexivity).
    cbn [negb]. rewrite Hs, Hp. cbn [is_zero]. now rewrite Hz. }
  split; [exact Hs|]. split; [exact Hp|]. split; [apply Hstep|].
  unfold parse_form4_url, serve, try_body, parsed_as.
  replace (clean_and_extract_xml sample_text)
    with (Return ("<ownershipDocument> </ownershipDocument>"%string : pystr))
    by (vm_compute; reflexivity).
  replace (extract_metadata exercise_without_price) with (Return sample_metadata)
    by (vm_compute; reflexivity).
  replace (transactions exercise_without_price)
    with [sample_transaction "m" "500" []] by (vm_compute; reflexivity).
  cbn [process_transactions]. now rewrite Hstep.
Qed.

(** C9 (amended). [parse_form4_url] returns a list whatever happens, and
    the list is empty whenever the download, the sanitizer, the tree
    parser or the extraction of the metadata fails. *)
Theorem failure_isolation (xml_url : pystr) :
  (exists trades,
      parse_form4_url py_float http_get fromstring xml_url = Return trades)
  /\ (early_failure http_get fromstring xml_url ->
      parse_form4_url py_float http_get fromstring xml_url = Return []).
Proof.
  split.
  - destruct (http_get xml_url) as [xml|] eqn:Hget.
    + eexists. apply (parse_form4_url_returns Hget).
    + exists []. unfold parse_form4_url. now rewrite Hget.
  - intros [Hget | xml e Hget Hc | xml c Hget Hc Hp | xml c root e Hget Hc Hp Hm].
    + unfold parse_form4_url. now rewrite Hget.
    + fold parse. rewrite (parse_form4_url_returns Hget).
      unfold try_body. now rewrite Hc.
    + fold parse. rewrite (parse_form4_url_returns Hget).
      unfold try_body. now rewrite Hc, Hp.
    + fold parse. rewrite (parse_form4_url_returns Hget).
      unfold try_body. now rewrite Hc, Hp, Hm.
Qed.

End ScraperFacts.

(** The trade of C4 on a run: an exercise of 500 shares whose price element
    carries no value. *)
Lemma trade_postcondition_witness :
  In (code (sample_trade "M" 500 0 false)) TARGET_CODES
  /\ value (sample_trade "M" 500 0 false)
     = PrimFloat.mul (shares (sample_trade "M" 500 0 false))
                     (price (sample_trade "M" 500 0 false))
  /\ (is_value_trade (sample_trade "M" 500 0 false) = true
      <-> In (code (sample_trade "M" 500 0 false)) VALUE_CODES).
Proof.
  apply (@trade_postcondition float_of_digits (serve sample_text)
           (parsed_as (sample_filing [sample_transaction "m" "500" price_without_value]))
           [] [sample_trade "M" 500 0 false]).
  - vm_compute. reflexivity.
  - left. reflexivity.
Defined.

(** C5 with the digits reader for [float()]. *)
Lemma exercise_without_price_is_dropped_witness :
  process_transaction float_of_digits sample_metadata
                      (sample_transaction "m" "500" []) = Raise TypeError
  /\ parse_form4_url float_of_digits (serve sample_text)
                     (parsed_as exercise_without_price) [] = Return [].
Proof.
  destruct (@exercise_without_price_is_dropped float_of_digits 500%float)
    as (_ & _ & H3 & H4); [reflexivity | reflexivity |].
  split; [exact H3 | exact H4].
Defined.

(** C9 as the claim states it fails: the second transaction of this filing
    has no price element, the product raises [TypeError] inside the loop,
    and the call returns the trade of the first transaction, not the empty
    list. *)
Lemma extraction_failure_not_empty :
  snd (try_body float_of_digits (parsed_as second_transaction_fails) sample_text)
  = Some TypeError
  /\ parse_form4_url float_of_digits (serve sample_text)
                     (parsed_as second_transaction_fails) []
     = Return [sample_trade "M" 500 0 false]
  /\ [sample_trade "M" 500 0 false] <> [].
Proof.
  split; [vm_compute; reflexivity|]. split; [vm_compute; reflexivity|].
  discriminate.
Qed.

(** C9 (amended) on a download that holds no ownership document. *)
Lemma failure_isolation_witness :
  parse_form4_url float_of_digits (serve ("no document"%string : pystr))
                  (parsed_as (sample_filing [])) [] = Return [].
Proof.
  apply (@failure_isolation float_of_digits (serve ("no document"%string : pystr))
           (parsed_as (sample_filing [])) []).
  apply SanitizeFailed with (xml_text := ("no document"%string : pystr)) (e := ValueError);
    reflexivity.
Defined.

(** ** The merge of the dashboard *)

Section DashboardFacts.

Variable py_str : float -> pystr.
Variable DASHBOARD_API_KEY : pystr.

Let key := unique_key py_str.
Let firsts := first_occurrences py_str.
Let dedup := deduplicate_trades py_str.

Lemma key_in_In (k : trade_key) (d : list (trade_key * Trade)) :
  key_in k d = true <-> In k (map fst d).
Proof.
  unfold key_in. rewrite existsb_exists, in_map_iff. split.
  - intros (kv & Hin & E). exists kv.
    destruct (trade_key_eq_dec k (fst kv)); [auto | discriminate].
  - intros (kv & E & Hin). exists kv. split; [assumption|].
    destruct (trade_key_eq_dec k (fst kv)); congruence.
Qed.

(** The dict built by the loop, read back as a list, is the list of first
    occurrences. *)
Lemma fold_dedup_step (l : list Trade) :
  forall d,
    map snd (fold_left (dedup_step py_str) l d)
    = map snd d ++ firsts (map fst d) l.
Proof.
  induction l as [|t l IH]; intros d; simpl.
  - now rewrite app_nil_r.
  - rewrite IH. unfold dedup_step. fold (key t).
    destruct (key_in (key t) d) eqn:E;
      destruct (in_dec trade_key_eq_dec (key t) (map fst d)) as [Hin|Hout].
    + reflexivity.
    + apply key_in_In in E. contradiction.
    + apply key_in_In in Hin. congruence.
    + rewrite !map_app, <- app_assoc. reflexivity.
Qed.

Lemma deduplicate_trades_firsts (l : list Trade) : dedup l = firsts [] l.
Proof. unfold dedup, deduplicate_trades. now rewrite fold_dedup_step. Qed.

Lemma firsts_app (l1 l2 : list Trade) :
  forall seen,
    firsts seen (l1 ++ l2)
    = firsts seen l1 ++ firsts (seen ++ map key (firsts seen l1)) l2.
Proof.
  induction l1 as [|t l1 IH]; intros seen; simpl.
  - now rewrite app_nil_r.
  - fold (key t). destruct (in_dec trade_key_eq_dec (key t) seen).
    + apply IH.
    + simpl. rewrite IH. do 2 f_equal. now rewrite <- app_assoc.
Qed.

(** Every key of the input is seen once the pass is over. *)
Lemma firsts_cover (l : list Trade) :
  forall seen t, In t l -> In (key t) (seen ++ map key (firsts seen l)).
Proof.
  induction l as [|x l IH]; intros seen t Hin; [destruct Hin|].
  destruct Hin as [<- | Hin]; simpl; fold (key x);
    destruct (in_dec trade_key_eq_dec (key x) seen) as [Hx|Hx].
  - apply in_or_app. now left.
  - apply in_or_app. right. now left.
  - now apply IH.
  - simpl. specialize (IH (seen ++ [key x]) t Hin).
    rewrite <- app_assoc in IH. exact IH.
Qed.

Lemma firsts_all_seen (l : list Trade) (seen : list trade_key) :
  (forall t, In t l -> In (key t) seen) -> firsts seen l = [].
Proof.
  induction l as [|x l IH]; intros H; simpl; [reflexivity|]. fold (key x).
  destruct (in_dec trade_key_eq_dec (key x) seen) as [Hx|Hx].
  - apply IH. intros t Ht. apply H. now right.
  - destruct Hx. apply H. now left.
Qed.

(** The keys kept are new and pairwise distinct. *)
Lemma firsts_fresh (l : list Trade) :
  forall seen t, In t (firsts seen l) -> ~ In (key t) seen.
Proof.
  induction l as [|x l IH]; intros seen t; simpl; [tauto|]. fold (key x).
  destruct (in_dec trade_key_eq_dec (key x) seen) as [Hx|Hx].
  - apply IH.
  - intros [<- | Hin]; [assumption|]. apply IH in Hin.
    intros H. apply Hin. apply in_or_app. now left.
Qed.

Lemma firsts_NoDup (l : list Trade) :
  forall seen, NoDup (map key (firsts seen l)).
Proof.
  induction l as [|x l IH]; intros seen; simpl; [constructor|]. fold (key x).
  destruct (in_dec trade_key_eq_dec (key x) seen) as [Hx|Hx]; [apply IH|].
  simpl. constructor; [|apply IH].
  rewrite in_map_iff. intros (t & E & Hin). apply firsts_fresh in Hin.
  apply Hin. apply in_or_app. right. left. now rewrite E.
Qed.

Lemma firsts_fixed (l : list Trade) :
  forall seen,
    NoDup (map key l) -> (forall t, In t l -> ~ In (key t) seen) ->
    firsts seen l = l.
Proof.
  induction l as [|x l IH]; intros seen Hnd Hfresh; simpl; [reflexivity|].
  fold (key x). simpl in Hnd. inversion Hnd as [|? ? Hx Hl]; subst.
  destruct (in_dec trade_key_eq_dec (key x) seen) as [Hin|_].
  - destruct (Hfresh x (or_introl eq_refl) Hin).
  - f_equal. apply IH; [assumption|].
    intros t Ht H. apply in_app_or in H. destruct H as [H | [H | []]].
    + apply (Hfresh t (or_intror Ht) H).
    + apply Hx. rewrite H. now apply in_map.
Qed.

Lemma firsts_subsequence (l : list Trade) :
  forall seen, subsequence (firsts seen l) l.
Proof.
  induction l as [|x l IH]; intros seen; simpl; [constructor|]. fold (key x).
  destruct (in_dec trade_key_eq_dec (key x) seen); constructor; apply IH.
Qed.



(** C2. Merging a batch into the result of merging it changes nothing: the
    list of trades is the same, hence the same set of records, and so is
    the list obtained by deduplicating the result once more. *)
Theorem merge_idempotent (S B : list Trade) :
  merge py_str (merge py_str S B) B = merge py_str S B
  /\ (forall t, In t (merge py_str (merge py_str S B) B)
                <-> In t (merge py_str S B))
  /\ deduplicate_trades py_str (merge py_str S B) = merge py_str S B.
Proof.
  assert (Hfix : forall l, firsts [] (firsts [] l) = firsts [] l).
  { intros l. apply firsts_fixed; [apply firsts_NoDup | intros t _ []]. }
  assert (Hm : merge py_str (merge py_str S B) B = merge py_str S B).
  { unfold merge. fold dedup. rewrite !deduplicate_trades_firsts.
    rewrite (firsts_app (firsts [] (S ++ B)) B []), Hfix. cbn [app].
    replace (firsts (map key (firsts [] (S ++ B))) B) with (@nil Trade);
      [apply app_nil_r|].
    symmetry. apply firsts_all_seen. intros t Ht. apply (firsts_cover (S ++ B) [] t).
    apply in_or_app. now right. }
  split; [exact Hm|]. split.
  - intros t. now rewrite Hm.
  - unfold merge. fold dedup. rewrite !deduplicate_trades_firsts. apply Hfix.
Qed.


(** C10. [upload_trades] looks at the body before the key: a request that
    is not JSON, or whose body does not parse, is answered 400 whatever
    its key; an answer 403 means the request was JSON with a body that
    parsed and a key that differs from the configured one. *)
Theorem upload_validates_before_authenticating
    (request : Request) (stored : list Trade) :
  (is_json request = false \/ get_json request = None ->
   fst (upload_trades py_str DASHBOARD_API_KEY request stored) = 400)
  /\ (fst (upload_trades py_str DASHBOARD_API_KEY request stored) = 403 ->
      is_json request = true
      /\ (exists body, get_json request = Some body)
      /\ key_mismatch DASHBOARD_API_KEY (x_api_key request) = true).
Proof.
  unfold upload_trades.
  destruct (is_json request); cbn [negb];
    [|split; [reflexivity | discriminate]].
  destruct (get_json request) as [body|];
    [|split; [reflexivity | discriminate]].
  destruct (key_mismatch DASHBOARD_API_KEY (x_api_key request)).
  - split; [intros [H|H]; discriminate H|]. intros _. eauto.
  - split; [intros [H|H]; discriminate H|].
    destruct body as [|[[|l]|]]; discriminate.
Qed.

End DashboardFacts.


(** C10 on a request that is not JSON and carries no key. *)
Lemma upload_validates_before_authenticating_witness :
  fst (upload_trades str_of_float ("secret"%string : pystr) plain_request []) = 400.
Proof.
  apply (@upload_validates_before_authenticating str_of_float
           ("secret"%string : pystr) plain_request []).
  left. reflexivity.
Defined.

(** * More of the code *)

(** ** The target date and the URL of its index *)

Lemma weekday_range (d : Z) : (0 <= weekday d < 7)%Z.
Proof. unfold weekday. apply Z.mod_pos_bound. lia. Qed.

Lemma weekday_pred (d : Z) :
  weekday (d - 1) = (if (weekday d =? 0)%Z then 6 else weekday d - 1)%Z.
Proof.
  unfold weekday. destruct (Z.eqb_spec ((d + 6) mod 7) 0);
    Z.div_mod_to_equations; lia.
Qed.

(** X1. [get_last_business_day] ends within three turns of its loop: it
    returns the latest day before today that falls on Monday to Friday,
    at most three days back, every day skipped being a Saturday or a
    Sunday. *)
Theorem last_business_day_found (today : Z) (fuel : nat) :
  (4 <= today)%Z -> 3 <= fuel ->
  exists d,
    get_last_business_day fuel today = Some d
    /\ (weekday d < 5)%Z
    /\ (today - 3 <= d < today)%Z
    /\ forall d', (d < d' < today)%Z -> (5 <= weekday d')%Z.
Proof.
  intros _ Hfuel. destruct fuel as [|[|[|fuel]]]; try lia.
  unfold get_last_business_day. cbn [last_business_day_from].
  pose proof (weekday_range (today - 1)) as R1.
  pose proof (weekday_pred (today - 1)) as P1.
  pose proof (weekday_pred (today - 1 - 1)) as P2.
  destruct (Z.ltb_spec (weekday (today - 1)) 5) as [H1|H1].
  { exists (today - 1)%Z. repeat split; try lia. }
  destruct (Z.eqb_spec (weekday (today - 1)) 0) as [E1|E1]; [lia|].
  destruct (Z.ltb_spec (weekday (today - 1 - 1)) 5) as [H2|H2].
  { exists (today - 1 - 1)%Z. repeat split; try lia.
    intros d' Hd'. replace d' with (today - 1)%Z by lia. lia. }
  destruct (Z.eqb_spec (weekday (today - 1 - 1)) 0) as [E2|E2]; [lia|].
  destruct (Z.ltb_spec (weekday (today - 1 - 1 - 1)) 5) as [H3|H3]; [|lia].
  exists (today - 1 - 1 - 1)%Z. repeat split; try lia.
  intros d' Hd'.
  assert (d' = today - 1 \/ d' = today - 1 - 1)%Z as [-> | ->] by lia; lia.
Qed.

(** X1 on a Monday: the Friday before. *)
Lemma last_business_day_found_witness :
  exists d,
    get_last_business_day 3 8 = Some d
    /\ (weekday d < 5)%Z
    /\ (8 - 3 <= d < 8)%Z
    /\ forall d', (d < d' < 8)%Z -> (5 <= weekday d')%Z.
Proof. apply (@last_business_day_found 8 3); lia. Defined.

(** X2. For a month between 1 and 12 the quarter of the index URL lies
    between 1 and 4 and is the quarter that holds the month. *)
Theorem quarter_of_month (date : datetime) :
  1 <= dt_month date <= 12 ->
  1 <= quarter_of date <= 4
  /\ 3 * (quarter_of date - 1) < dt_month date <= 3 * quarter_of date.
Proof.
  unfold quarter_of. destruct date as [y m d]. cbn [dt_month]. intros [H1 H2].
  do 13 (destruct m as [|m]; [cbn; lia|]). lia.
Qed.

Lemma quarter_of_month_witness :
  1 <= quarter_of (mk_datetime 2024 11 5) <= 4
  /\ 3 * (quarter_of (mk_datetime 2024 11 5) - 1) < 11
     <= 3 * quarter_of (mk_datetime 2024 11 5).
Proof. apply (@quarter_of_month (mk_datetime 2024 11 5)). cbn. lia. Defined.

Lemma digit_inj (a b : nat) : digit a = digit b -> a mod 10 = b mod 10.
Proof.
  unfold digit. intros H. apply (f_equal nat_of_ascii) in H.
  pose proof (Nat.mod_upper_bound a 10 ltac:(lia)).
  pose proof (Nat.mod_upper_bound b 10 ltac:(lia)).
  rewrite !nat_ascii_embedding in H by lia. lia.
Qed.

Lemma four_digits_split (a : nat) :
  a < 10 * 1000 ->
  a = 1000 * ((a / 1000) mod 10) + 100 * ((a / 100) mod 10)
      + 10 * ((a / 10) mod 10) + a mod 10.
Proof.
  intros Ha.
  assert (E2 : a / 100 = a / 10 / 10) by (now rewrite Nat.Div0.div_div).
  assert (E3 : a / 1000 = a / 10 / 10 / 10) by (now rewrite !Nat.Div0.div_div).
  rewrite E2, E3.
  pose proof (Nat.div_mod_eq a 10) as D1.
  pose proof (Nat.div_mod_eq (a / 10) 10) as D2.
  pose proof (Nat.div_mod_eq (a / 10 / 10) 10) as D3.
  pose proof (Nat.div_mod_eq (a / 10 / 10 / 10) 10) as D4.
  pose proof (Nat.mod_upper_bound a 10 ltac:(lia)).
  pose proof (Nat.mod_upper_bound (a / 10) 10 ltac:(lia)).
  pose proof (Nat.mod_upper_bound (a / 10 / 10) 10 ltac:(lia)).
  pose proof (Nat.mod_upper_bound (a / 10 / 10 / 10) 10 ltac:(lia)).
  assert (a / 10 / 10 / 10 / 10 = 0) by (apply Nat.div_small_iff; lia).
  lia.
Qed.

Lemma four_digits_inj (a b : nat) :
  a < 10 * 1000 -> b < 10 * 1000 -> four_digits a = four_digits b -> a = b.
Proof.
  intros Ha Hb H. unfold four_digits in H.
  assert (H3 : digit (a / 1000) = digit (b / 1000)) by congruence.
  assert (H2 : digit (a / 100) = digit (b / 100)) by congruence.
  assert (H1 : digit (a / 10) = digit (b / 10)) by congruence.
  assert (H0 : digit a = digit b) by congruence.
  apply digit_inj in H3, H2, H1, H0.
  rewrite (four_digits_split Ha), (four_digits_split Hb). congruence.
Qed.

Lemma two_digits_inj (a b : nat) :
  a <= 99 -> b <= 99 -> two_digits a = two_digits b -> a = b.
Proof.
  intros Ha Hb H. unfold two_digits in H.
  assert (H1 : digit (a / 10) = digit (b / 10)) by congruence.
  assert (H0 : digit a = digit b) by congruence.
  apply digit_inj in H1, H0.
  pose proof (Nat.div_mod_eq a 10). pose proof (Nat.div_mod_eq b 10).
  assert (a / 10 < 10) by (apply Nat.Div0.div_lt_upper_bound; lia).
  assert (b / 10 < 10) by (apply Nat.Div0.div_lt_upper_bound; lia).
  rewrite (Nat.mod_small (a / 10)) in H1 by lia.
  rewrite (Nat.mod_small (b / 10)) in H1 by lia.
  lia.
Qed.

Lemma app_same_length {A : Type} (a b x y : list A) :
  List.length a = List.length b -> a ++ x = b ++ y -> a = b /\ x = y.
Proof.
  revert b. induction a as [|c a IH]; intros [|d b] Hlen H;
    try discriminate Hlen; [auto|].
  simpl in H. injection H as -> H. simpl in Hlen.
  destruct (IH b) as (-> & ->); auto.
Qed.

(** X3. The URL of the daily index determines the date: two valid dates
    with the same URL are the same date. *)
Theorem index_url_injective (d1 d2 : datetime) :
  valid_date d1 -> valid_date d2 ->
  get_edgar_archive_date_url d1 = get_edgar_archive_date_url d2 ->
  d1 = d2.
Proof.
  intros (Hy1 & Hm1 & Hd1) (Hy2 & Hm2 & Hd2) H.
  destruct d1 as [y1 m1 a1], d2 as [y2 m2 a2]. cbn [dt_year dt_month dt_day] in *.
  unfold get_edgar_archive_date_url in H. cbn [dt_year dt_month dt_day] in H.
  apply app_inv_head in H.
  apply app_same_length in H; [|reflexivity]. destruct H as (Hy & H).
  apply four_digits_inj in Hy; try lia. subst y2.
  apply app_inv_head in H.
  apply app_same_length in H; [|reflexivity]. destruct H as (_ & H).
  apply app_inv_head in H. apply app_inv_tail in H. apply app_inv_head in H.
  apply app_same_length in H; [|reflexivity]. destruct H as (Hm & Ha).
  apply two_digits_inj in Hm, Ha; try lia. now subst.
Qed.

Lemma index_url_injective_witness :
  mk_datetime 2024 11 5 = mk_datetime 2024 11 5.
Proof.
  apply (@index_url_injective (mk_datetime 2024 11 5) (mk_datetime 2024 11 5));
    [cbv [valid_date dt_year dt_month dt_day]; lia
    |cbv [valid_date dt_year dt_month dt_day]; lia
    |reflexivity].
Defined.

(** ** The URLs of the index *)

Lemma split_fields_no_sep (sep : ascii) (s : pystr) :
  forall f, In f (Py.split sep s) -> ~ In sep f.
Proof.
  induction s as [|c s IH]; intros f; simpl.
  - intros [<- | []]. intros [].
  - destruct (Ascii.eqb c sep) eqn:E.
    + intros [<- | H]; [intros [] | now apply IH].
    + destruct (Py.split sep s) as [|g gs].
      * intros [<- | []]. intros [-> | []]. now rewrite Ascii.eqb_refl in E.
      * intros [<- | H].
        -- intros [-> | H]; [now rewrite Ascii.eqb_refl in E|].
           apply (IH g); [now left | assumption].
        -- apply IH. now right.
Qed.

Lemma split_fields_chars (sep : ascii) (s : pystr) :
  forall f, In f (Py.split sep s) -> forall c, In c f -> In c s.
Proof.
  induction s as [|a s IH]; intros f; simpl.
  - intros [<- | []] c [].
  - destruct (Ascii.eqb a sep).
    + intros [<- | H] c Hc; [destruct Hc|]. right. now apply (IH f).
    + destruct (Py.split sep s) as [|g gs].
      * intros [<- | []] c [<- | []]. now left.
      * intros [<- | H] c Hc.
        -- destruct Hc as [<- | Hc]; [now left|]. right.
           apply (IH g); [now left | assumption].
        -- right. apply (IH f); [now right | assumption].
Qed.

Lemma splitlines_from_no_break (n : nat) :
  forall (s cur line : pystr),
    List.length s <= n ->
    (forall c, In c cur -> Py.is_linebreak c = false) ->
    In line (Py.splitlines_from cur s) ->
    forall c, In c line -> Py.is_linebreak c = false.
Proof.
  induction n as [|n IH]; intros s cur line Hlen Hcur Hin c Hc.
  - destruct s; [|simpl in Hlen; lia]. simpl in Hin.
    destruct cur; [destruct Hin|]. destruct Hin as [<- | []].
    apply Hcur. now apply in_rev.
  - destruct s as [|a s].
    + simpl in Hin. destruct cur; [destruct Hin|]. destruct Hin as [<- | []].
      apply Hcur. now apply in_rev.
    + simpl in Hlen. cbn [Py.splitlines_from] in Hin.
      assert (Hrev : line = rev cur -> Py.is_linebreak c = false).
      { intros ->. apply Hcur. now apply in_rev. }
      assert (Hnil : forall s', List.length s' <= n ->
                       In line (Py.splitlines_from [] s') ->
                       Py.is_linebreak c = false).
      { intros s' Hs' H. apply (IH s' [] line Hs'); [intros ? [] | exact H | exact Hc]. }
      destruct (Py.code a =? 13) eqn:E13.
      * destruct s as [|d s'].
        -- destruct Hin as [E | H]; [now apply Hrev | destruct H].
        -- destruct (Py.code d =? 10).
           ++ destruct Hin as [E | H]; [now apply Hrev|].
              apply (Hnil s'); [simpl in Hlen; lia | exact H].
           ++ destruct Hin as [E | H]; [now apply Hrev|].
              apply (Hnil (d :: s')); [lia | exact H].
      * destruct (Py.is_linebreak a) eqn:Eb.
        -- destruct Hin as [E | H]; [now apply Hrev|].
           apply (Hnil s); [lia | exact H].
        -- apply (IH s (a :: cur) line); [lia | | exact Hin | exact Hc].
           intros x [<- | Hx]; [assumption | now apply Hcur].
Qed.

Lemma flat_map_short {A B : Type} (f : A -> list B) (l : list A) :
  (forall x, List.length (f x) <= 1) ->
  List.length (flat_map f l) <= List.length l.
Proof.
  intros H. induction l as [|x l IH]; simpl; [lia|].
  rewrite length_app. specialize (H x). lia.
Qed.

Lemma index_step_short (line : pystr) : List.length (index_step [] line) <= 1.
Proof.
  unfold index_step. destruct (_ && _); [|simpl; lia].
  destruct (_ =? 5); simpl; lia.
Qed.

(** X4. A failed download of the index gives no URL. Otherwise there are
    at most as many URLs as the index has lines, and every URL is the
    archive prefix followed by a path that holds no ["|"] and no line
    break. *)
Theorem index_urls_shape (http_get : pystr -> option pystr) (index_url : pystr) :
  (http_get index_url = None ->
   get_form4_urls_from_index http_get index_url = [])
  /\ (forall index_text,
         http_get index_url = Some index_text ->
         List.length (get_form4_urls_from_index http_get index_url)
         <= List.length (Py.splitlines index_text))
  /\ (forall u,
         In u (get_form4_urls_from_index http_get index_url) ->
         exists path,
           u = ("https://www.sec.gov/Archives/"%string : pystr) ++ path
           /\ forall c, In c path ->
                        c <> "|"%char /\ Py.is_linebreak c = false).
Proof.
  unfold get_form4_urls_from_index, form4_urls_of_index.
  destruct (http_get index_url) as [text|];
    [|split; [reflexivity | split; [discriminate | intros ? []]]].
  split; [discriminate|]. split.
  - intros ? E. injection E as <-. rewrite fold_index_step. simpl.
    apply flat_map_short, index_step_short.
  - intros u. rewrite fold_index_step. simpl. rewrite in_flat_map.
    intros (line & Hline & Hu).
    assert (E : index_step [] line = [u]).
    { pose proof (index_step_short line) as Hs.
      destruct (index_step [] line) as [|v [|w r]]; simpl in Hs, Hu;
        [destruct Hu | destruct Hu as [-> | []]; reflexivity | lia]. }
    apply index_step_five_fields in E.
    destruct E as (f0 & f1 & f3 & f4 & Hsplit & ->). exists f4.
    split; [reflexivity|]. intros c Hc. split.
    + intros ->. apply (@split_fields_no_sep "|"%char line f4); [|assumption].
      rewrite Hsplit. simpl. auto 6.
    + assert (Hf : In f4 (Py.split "|" line)) by (rewrite Hsplit; simpl; auto 6).
      assert (Hl : forall x, In x line -> Py.is_linebreak x = false).
      { apply (@splitlines_from_no_break (List.length text) text [] line);
          [lia | intros ? [] | exact Hline]. }
      apply Hl. apply (split_fields_chars "|"%char line f4 Hf c Hc).
Qed.

(** X4 on the sample index. *)
Lemma index_urls_shape_witness :
  List.length (get_form4_urls_from_index (serve sample_index) []) <= 2.
Proof.
  apply (proj1 (proj2 (index_urls_shape (serve sample_index) [])) sample_index).
  reflexivity.
Defined.

(** ** What the trades of a filing carry *)

Lemma upper_char_idempotent (c : ascii) :
  Py.upper (Py.upper_char c) = Py.upper_char c.
Proof. destruct c as [[] [] [] [] [] [] [] []]; reflexivity. Qed.

Lemma upper_idempotent (s : pystr) : Py.upper (Py.upper s) = Py.upper s.
Proof.
  induction s as [|c s IH]; [reflexivity|].
  unfold Py.upper in *. cbn [flat_map].
  rewrite flat_map_app, IH. f_equal. apply upper_char_idempotent.
Qed.

Lemma scan_ticker_upper (l : list ET.Element) :
  forall m,
    Py.upper (issuer_ticker m) = issuer_ticker m ->
    Py.upper (issuer_ticker (fold_left metadata_step l m))
    = issuer_ticker (fold_left metadata_step l m).
Proof.
  induction l as [|e l IH]; intros m Hm; simpl; [assumption|].
  apply IH. rewrite step_issuer_ticker.
  destruct (matches _ e); [apply upper_idempotent | assumption].
Qed.

Section TradesOfAFiling.

Variable py_float : pystr -> option float.
Variable http_get : pystr -> option pystr.
Variable fromstring : pystr -> option ET.Element.

Lemma process_transaction_metadata (m : Metadata) (tx : ET.Element) (t : Trade) :
  process_transaction py_float m tx = Return (Some t) ->
  ticker t = issuer_ticker m
  /\ company_name t = issuer_name m
  /\ filer t = filer_name m
  /\ person_title t = filer_relationship m.
Proof.
  unfold process_transaction.
  destruct (code_and_date tx) as [c d].
  destruct (py_in c TARGET_CODES); cbn [negb]; [|discriminate].
  destruct (extract_value_via_iteration py_float tx "transactionShares"%string)
    as [|s]; cbn [is_zero].
  - destruct (extract_value_via_iteration py_float tx "transactionPricePerShare"%string);
      discriminate.
  - destruct (PrimFloat.eqb s 0); [discriminate|].
    destruct (extract_value_via_iteration py_float tx "transactionPricePerShare"%string)
      as [|p]; [discriminate|].
    cbv zeta.
    match goal with
    | |- (if keep_trade ?x then _ else _) = _ -> _ => destruct (keep_trade x)
    end; [|discriminate].
    intros E. injection E as <-. cbn. auto.
Qed.

(** X5. Every trade returned for a filing carries the metadata extracted
    from that filing: its ticker, company name, filer and title are those
    of the filing, and its share count is not 0.0. *)
Theorem trades_carry_filing_metadata
    (xml_url xml_text cleaned : pystr) (root : ET.Element) (m : Metadata)
    (trades : list Trade) (t : Trade) :
  http_get xml_url = Some xml_text ->
  clean_and_extract_xml xml_text = Return cleaned ->
  fromstring cleaned = Some root ->
  extract_metadata root = Return m ->
  parse_form4_url py_float http_get fromstring xml_url = Return trades ->
  In t trades ->
  ticker t = issuer_ticker m
  /\ company_name t = issuer_name m
  /\ filer t = filer_name m
  /\ person_title t = filer_relationship m
  /\ PrimFloat.eqb (shares t) 0 = false.
Proof.
  intros Hget Hclean Hparse Hmeta Hret Hin.
  rewrite (@parse_form4_url_returns py_float http_get fromstring _ _ Hget) in Hret.
  injection Hret as <-. unfold try_body in Hin.
  rewrite Hclean, Hparse, Hmeta in Hin.
  assert (Hall : Forall
            (fun t => (ticker t = issuer_ticker m
                       /\ company_name t = issuer_name m
                       /\ filer t = filer_name m
                       /\ person_title t = filer_relationship m)
                      /\ PrimFloat.eqb (shares t) 0 = false)
            (fst (process_transactions py_float m (transactions root) []))).
  { apply process_transactions_invariant; [|constructor].
    intros tx t' _ Hstep. split.
    - now apply (process_transaction_metadata m tx).
    - apply process_transaction_appends in Hstep. tauto. }
  rewrite Forall_forall in Hall. specialize (Hall t Hin). tauto.
Qed.

(** X6. The ticker of a returned trade holds no lower-case ASCII letter:
    upper-casing it changes nothing. *)
Theorem tickers_are_upper_case
    (xml_url : pystr) (trades : list Trade) (t : Trade) :
  parse_form4_url py_float http_get fromstring xml_url = Return trades ->
  In t trades ->
  Py.upper (ticker t) = ticker t.
Proof.
  intros Hret Hin.
  destruct (http_get xml_url) as [xml|] eqn:Hget;
    [|unfold parse_form4_url in Hret; rewrite Hget in Hret;
      injection Hret as <-; destruct Hin].
  rewrite (@parse_form4_url_returns py_float http_get fromstring _ _ Hget) in Hret.
  injection Hret as <-. unfold try_body in Hin.
  destruct (clean_and_extract_xml xml) as [c|]; [|destruct Hin].
  destruct (fromstring c) as [root|]; [|destruct Hin].
  destruct (extract_metadata root) as [m|] eqn:Hm; [|destruct Hin].
  assert (Hall : Forall (fun t => ticker t = issuer_ticker m)
            (fst (process_transactions py_float m (transactions root) []))).
  { apply process_transactions_invariant; [|constructor].
    intros tx t' _ Hstep. now apply (process_transaction_metadata m tx). }
  rewrite Forall_forall in Hall. rewrite (Hall t Hin).
  apply extract_metadata_fields in Hm. destruct Hm as (_ & -> & _).
  apply scan_ticker_upper. reflexivity.
Qed.

End TradesOfAFiling.

Lemma trades_carry_filing_metadata_witness :
  ticker (sample_trade "M" 500 0 false) = ("ACME"%string : pystr)
  /\ company_name (sample_trade "M" 500 0 false) = ("Acme Corp"%string : pystr)
  /\ filer (sample_trade "M" 500 0 false) = ("Doe John"%string : pystr)
  /\ person_title (sample_trade "M" 500 0 false) = ("CEO"%string : pystr)
  /\ PrimFloat.eqb (shares (sample_trade "M" 500 0 false)) 0 = false.
Proof.
  apply (@trades_carry_filing_metadata float_of_digits (serve sample_text)
           (parsed_as (sample_filing
                         [sample_transaction "m" "500" price_without_value]))
           [] sample_text ("<ownershipDocument> </ownershipDocument>"%string : pystr)
           (sample_filing [sample_transaction "m" "500" price_without_value])
           (mkMetadata ("Acme Corp"%string : pystr) ("ACME"%string : pystr)
                       ("Doe John"%string : pystr) ("CEO"%string : pystr))
           [sample_trade "M" 500 0 false] (sample_trade "M" 500 0 false));
    try (vm_compute; reflexivity).
  left. reflexivity.
Defined.

Lemma tickers_are_upper_case_witness :
  Py.upper (ticker (sample_trade "M" 500 0 false))
  = ticker (sample_trade "M" 500 0 false).
Proof.
  apply (@tickers_are_upper_case float_of_digits (serve sample_text)
           (parsed_as (sample_filing
                         [sample_transaction "m" "500" price_without_value]))
           [] [sample_trade "M" 500 0 false] (sample_trade "M" 500 0 false)).
  - vm_compute. reflexivity.
  - left. reflexivity.
Defined.

(** ** The shape of the sanitized text *)

Lemma lstrip_idempotent (s : pystr) : Py.lstrip (Py.lstrip s) = Py.lstrip s.
Proof.
  induction s as [|c s IH]; simpl; [reflexivity|].
  destruct (Py.is_space c) eqn:E; [assumption|]. simpl. now rewrite E.
Qed.

Lemma lstrip_stops (u : pystr) :
  forall z v, Py.is_space z = false ->
              exists u', Py.lstrip (u ++ z :: v) = u' ++ z :: v.
Proof.
  induction u as [|c u IH]; intros z v Hz; simpl.
  - rewrite Hz. now exists [].
  - destruct (Py.is_space c); [now apply IH|]. now exists (c :: u).
Qed.

(** Stripping on the right keeps a prefix that ends with a character that
    is no space. *)
Lemma rstrip_keeps (m : pystr) (z : ascii) (post : pystr) :
  Py.is_space z = false ->
  exists x, Py.rstrip (m ++ z :: post) = m ++ z :: x.
Proof.
  intros Hz. unfold Py.rstrip.
  replace (rev (m ++ z :: post)) with (rev post ++ z :: rev m)
    by (rewrite rev_app_distr; simpl; now rewrite <- app_assoc).
  destruct (lstrip_stops (rev post) z (rev m) Hz) as (u' & ->).
  exists (rev u'). rewrite rev_app_distr. simpl.
  now rewrite rev_involutive, <- app_assoc.
Qed.

Lemma strip_idempotent (s : pystr) : Py.strip (Py.strip s) = Py.strip s.
Proof.
  unfold Py.strip.
  assert (H : Py.lstrip (Py.rstrip (Py.lstrip s)) = Py.rstrip (Py.lstrip s)).
  { assert (Hw : Py.lstrip s = [] \/
                 exists c w, Py.lstrip s = c :: w /\ Py.is_space c = false).
    { induction s as [|c s IH]; simpl; [now left|].
      destruct (Py.is_space c) eqn:E; [assumption|]. right. now exists c, s. }
    destruct Hw as [-> | (c & w & -> & Hc)]; [reflexivity|].
    destruct (rstrip_keeps [] c w Hc) as (x & E). simpl in E. rewrite E.
    simpl. now rewrite Hc. }
  rewrite H. unfold Py.rstrip at 1. unfold Py.rstrip at 1.
  now rewrite rev_involutive, lstrip_idempotent.
Qed.

Lemma space_is_lower (c : ascii) : Py.is_space c = true -> Py.lower_char c = c.
Proof. destruct c as [[] [] [] [] [] [] [] []]; intros H; try reflexivity; discriminate H. Qed.

Lemma match_ci_firstn (pat : pystr) :
  forall s n,
    Py.match_ci pat s = true -> List.length pat <= n ->
    Py.match_ci pat (firstn n s) = true.
Proof.
  induction pat as [|a pat IH]; intros s n H Hn; [reflexivity|].
  destruct s as [|c s]; [discriminate H|]. simpl in Hn.
  destruct n as [|n]; [lia|]. simpl in *.
  apply andb_true_iff in H. destruct H as (H1 & H2).
  rewrite H1. simpl. apply IH; [assumption | lia].
Qed.

Lemma match_decl_blocked (c : ascii) (s : pystr) :
  Ascii.eqb (Py.lower_char c) "<" = false
  \/ (exists d s', s = d :: s' /\ Ascii.eqb (Py.lower_char d) "?" = false) ->
  Py.match_decl (c :: s) = None.
Proof.
  unfold Py.match_decl.
  change (Py.match_ci "<?xml"%string (c :: s))
    with (Ascii.eqb (Py.lower_char c) "<"
          && Py.match_ci "?xml"%string s).
  intros [-> | (d & s' & -> & H)]; [reflexivity|].
  change (Py.match_ci "?xml"%string (d :: s'))
    with (Ascii.eqb (Py.lower_char d) "?" && Py.match_ci "xml"%string s').
  rewrite H. now rewrite andb_false_r.
Qed.

(** The substitution leaves a leading match of such a pattern in place. *)
Lemma sub_decl_keeps (pat : pystr) :
  decl_free pat = true ->
  forall s, Py.match_ci pat s = true ->
            Py.match_ci pat (Py.sub_decl_from 0 s) = true.
Proof.
  induction pat as [|a pat IH]; intros Hfree s H; [reflexivity|].
  destruct s as [|c s]; [discriminate H|].
  cbn [Py.match_ci] in H. apply andb_true_iff in H. destruct H as (Hc & Hs).
  cbn [decl_free] in Hfree. apply andb_true_iff in Hfree.
  destruct Hfree as (Ha & Hfree).
  assert (Hnone : Py.match_decl (c :: s) = None).
  { apply match_decl_blocked. apply Ascii.eqb_eq in Hc.
    apply orb_true_iff in Ha. destruct Ha as [Ha | Ha].
    - left. rewrite Hc. now apply negb_true_iff.
    - right. destruct pat as [|b pat]; [discriminate Ha|].
      destruct s as [|d s]; [discriminate Hs|].
      cbn [Py.match_ci] in Hs. apply andb_true_iff in Hs.
      destruct Hs as (Hd & _). apply Ascii.eqb_eq in Hd.
      exists d, s. split; [reflexivity|]. rewrite Hd. now apply negb_true_iff. }
  cbn [Py.sub_decl_from]. rewrite Hnone. cbn [Py.match_ci].
  rewrite Hc. simpl. now apply IH.
Qed.

(** Stripping leaves a leading match in place when the pattern begins and
    ends with characters that match no space. *)
Lemma strip_keeps_match (pat : pystr) (a z : ascii) (mid : pystr) (s : pystr) :
  pat = a :: mid ++ [z] ->
  Py.is_space (Py.lower_char a) = false ->
  Py.is_space (Py.lower_char z) = false ->
  Py.match_ci pat s = true ->
  Py.match_ci pat (Py.strip s) = true.
Proof.
  intros Hpat Ha Hz H. apply match_ci_prefix in H.
  destruct H as (m & post & -> & Hm). rewrite Hpat in Hm.
  destruct m as [|c m]; [discriminate Hm|]. simpl in Hm.
  injection Hm as Hc Hm.
  assert (Hlast : exists m' y, m = m' ++ [y] /\ Py.lower_char y = Py.lower_char z).
  { destruct (exists_last (l := m)) as (m' & y & ->).
    - intros ->. destruct mid; discriminate Hm.
    - exists m', y. split; [reflexivity|].
      rewrite !map_app in Hm. simpl in Hm.
      apply app_inj_tail in Hm. tauto. }
  destruct Hlast as (m' & y & -> & Hy).
  assert (Hcs : Py.is_space c = false).
  { destruct (Py.is_space c) eqn:E; [|reflexivity].
    apply space_is_lower in E as E'. congruence. }
  assert (Hys : Py.is_space y = false).
  { destruct (Py.is_space y) eqn:E; [|reflexivity].
    apply space_is_lower in E as E'. congruence. }
  unfold Py.strip. simpl. rewrite Hcs.
  replace (c :: (m' ++ [y]) ++ post) with ((c :: m') ++ y :: post)
    by (simpl; now rewrite <- app_assoc).
  destruct (rstrip_keeps (c :: m') y post Hys) as (x & ->).
  apply match_ci_prefix. exists (c :: m' ++ [y]), x. split.
  - simpl. now rewrite <- app_assoc.
  - rewrite Hpat. simpl. rewrite Hc. f_equal.
    rewrite !map_app. simpl. rewrite Hy.
    rewrite !map_app in Hm. simpl in Hm. apply app_inj_tail in Hm.
    now destruct Hm as (-> & _).
Qed.

(** X7. The text [clean_and_extract_xml] returns has no white space left
    at either end. It begins with the opening marker when the first
    closing marker does not start before the first opening one, and it is
    empty when the first closing marker ends before the first opening one
    starts. *)
Theorem sanitized_text_shape (xml_text r : pystr) :
  clean_and_extract_xml xml_text = Return r ->
  Py.strip r = r
  /\ ((forall i e, Py.search_ci START_TAG xml_text = Some i ->
                   Py.search_ci END_TAG xml_text = Some e -> i <= e) ->
      Py.match_ci START_TAG r = true)
  /\ (forall i e, Py.search_ci START_TAG xml_text = Some i ->
                  Py.search_ci END_TAG xml_text = Some e ->
                  e + List.length END_TAG <= i -> r = []).
Proof.
  unfold clean_and_extract_xml.
  destruct (Py.search_ci START_TAG xml_text) as [i|] eqn:Hs; [|discriminate].
  intros E. injection E as <-. split; [apply strip_idempotent|]. split.
  - intros Horder.
    apply search_ci_leftmost in Hs. destruct Hs as (_ & Hm & _).
    apply (@strip_keeps_match START_TAG "<"%char "t"%char
             ("ownershipDocumen"%string : pystr));
      [reflexivity | reflexivity | reflexivity |].
    apply sub_decl_keeps; [reflexivity|].
    destruct (Py.search_ci END_TAG xml_text) as [e|]; [|assumption].
    unfold Py.slice. apply match_ci_firstn; [assumption|].
    specialize (Horder i e eq_refl eq_refl).
    change (List.length START_TAG) with 18.
    change (List.length END_TAG) with 20. lia.
  - intros i' e Hi He Hlen. injection Hi as <-. rewrite He.
    unfold Py.slice. change (List.length END_TAG) with 20 in *.
    replace (e + 20 - i) with 0 by lia. reflexivity.
Qed.

Lemma sanitized_text_shape_witness :
  Py.strip ("<ownershipDocument> </ownershipDocument>"%string : pystr)
  = ("<ownershipDocument> </ownershipDocument>"%string : pystr).
Proof.
  apply (@sanitized_text_shape sample_text). vm_compute. reflexivity.
Defined.

(** ** The totals of [main] *)

Lemma fold_tally (l : list Trade) :
  forall t,
    all_trades (fold_left tally l t) = all_trades t ++ l
    /\ total_trades_count_all (fold_left tally l t)
       = total_trades_count_all t + List.length l
    /\ mega_trade_count (fold_left tally l t)
       = mega_trade_count t + List.length (filter is_mega_trade l)
    /\ total_value_all (fold_left tally l t)
       = fold_left PrimFloat.add (map value (filter is_value_trade l))
                   (total_value_all t)
    /\ mega_trade_total_value (fold_left tally l t)
       = fold_left PrimFloat.add (map value (filter is_mega_trade l))
                   (mega_trade_total_value t)
    /\ transaction_code_counts (fold_left tally l t)
       = fold_left (fun counts x => increment (code x) counts) l
                   (transaction_code_counts t).
Proof.
  induction l as [|x l IH]; intros t; cbn [fold_left].
  - cbn. rewrite app_nil_r. repeat split; lia.
  - destruct (IH (tally t x)) as (H1 & H2 & H3 & H4 & H5 & H6).
    rewrite H1, H2, H3, H4, H5, H6. clear IH H1 H2 H3 H4 H5 H6.
    unfold tally. fold (is_mega_trade x).
    cbn [all_trades total_trades_count_all mega_trade_count total_value_all
         mega_trade_total_value transaction_code_counts filter].
    rewrite <- app_assoc.
    destruct (is_value_trade x), (is_mega_trade x); cbn; repeat split; lia.
Qed.

Lemma count_for_increment (c x : pystr) (counts : list (pystr * nat)) :
  count_for c (increment x counts)
  = count_for c counts + (if Py.eqb x c then 1 else 0).
Proof.
  induction counts as [|[k n] counts IH]; simpl.
  - destruct (Py.eqb x c); lia.
  - destruct (Py.eqb k x) eqn:Ekx; simpl.
    + apply Py_eqb_eq in Ekx. subst k. destruct (Py.eqb x c); lia.
    + destruct (Py.eqb k c) eqn:Ekc; [|assumption].
      apply Py_eqb_eq in Ekc. subst k.
      destruct (Py.eqb x c) eqn:Exc; [|lia].
      apply Py_eqb_eq in Exc. subst x.
      assert (Py.eqb c c = true) by now apply Py_eqb_eq. congruence.
Qed.

Lemma sum_increment (x : pystr) (counts : list (pystr * nat)) :
  list_sum (map snd (increment x counts)) = S (list_sum (map snd counts)).
Proof.
  induction counts as [|[k n] counts IH]; simpl; [reflexivity|].
  destruct (Py.eqb k x); simpl; lia.
Qed.

Lemma keys_increment (x : pystr) (counts : list (pystr * nat)) :
  (forall k, In k (map fst (increment x counts))
             <-> k = x \/ In k (map fst counts))
  /\ (NoDup (map fst counts) -> NoDup (map fst (increment x counts))).
Proof.
  induction counts as [|[k n] counts (IH1 & IH2)]; simpl.
  - split; [intros k; intuition congruence|].
    intros _. constructor; [intros [] | constructor].
  - destruct (Py.eqb k x) eqn:E; simpl.
    + apply Py_eqb_eq in E. subst k. split; [intros k; intuition congruence | auto].
    + split.
      * intros k'. rewrite IH1. intuition congruence.
      * intros Hnd. inversion Hnd as [|? ? Hk Hrest]; subst.
        constructor; [|now apply IH2].
        rewrite IH1. intros [-> | H]; [|contradiction].
        assert (Py.eqb x x = true) by now apply Py_eqb_eq. congruence.
Qed.

Lemma fold_increment (l : list Trade) :
  forall counts,
    let r := fold_left (fun counts x => increment (code x) counts) l counts in
    (forall c, count_for c r
               = count_for c counts
                 + List.length (filter (fun x => Py.eqb (code x) c) l))
    /\ list_sum (map snd r) = list_sum (map snd counts) + List.length l
    /\ (forall k, In k (map fst r)
                  <-> In k (map fst counts) \/ In k (map code l))
    /\ (NoDup (map fst counts) -> NoDup (map fst r)).
Proof.
  induction l as [|x l IH]; intros counts; cbn [fold_left].
  - cbn. repeat split; try lia; try tauto.
  - destruct (IH (increment (code x) counts)) as (H1 & H2 & H3 & H4).
    cbv zeta in *. repeat split.
    + intros c. rewrite H1, count_for_increment. cbn [filter].
      destruct (Py.eqb (code x) c); cbn; lia.
    + rewrite H2, sum_increment. cbn. lia.
    + rewrite H3. rewrite (proj1 (keys_increment (code x) counts)). cbn.
      intuition congruence.
    + rewrite H3. rewrite (proj1 (keys_increment (code x) counts)). cbn.
      intuition congruence.
    + intros Hnd. apply H4. now apply (proj2 (keys_increment (code x) counts)).
Qed.

Section MainFacts.

Variable py_float : pystr -> option float.
Variable http_get : pystr -> option pystr.
Variable fromstring : pystr -> option ET.Element.

Let parse := parse_form4_url py_float http_get fromstring.

Lemma parse_form4_url_total (url : pystr) : exists trades, parse url = Return trades.
Proof.
  destruct (http_get url) as [xml|] eqn:Hget.
  - eexists. apply (@parse_form4_url_returns py_float http_get fromstring _ _ Hget).
  - exists []. unfold parse, parse_form4_url. now rewrite Hget.
Qed.

(** The loop over the URLs returns, and its totals are the tally of the
    trades of each filing, one filing after the other. *)
Lemma process_urls_tally (urls : list pystr) :
  forall t,
    exists batches,
      Forall2 (fun url trades => parse url = Return trades) urls batches
      /\ process_urls py_float http_get fromstring urls t
         = Return (fold_left tally (List.concat batches) t).
Proof.
  induction urls as [|url urls IH]; intros t.
  - exists []. split; [constructor | reflexivity].
  - destruct (parse_form4_url_total url) as (trades & Hp).
    destruct (IH (fold_left tally trades t)) as (batches & HF & Hr).
    exists (trades :: batches). split; [now constructor|].
    cbn [process_urls List.concat]. fold parse. rewrite Hp. cbn [bind].
    now rewrite fold_left_app.
Qed.

Lemma batches_invariant (P : Trade -> Prop) (urls : list pystr)
    (batches : list (list Trade)) :
  (forall m tx t, process_transaction py_float m tx = Return (Some t) -> P t) ->
  Forall2 (fun url trades => parse url = Return trades) urls batches ->
  Forall P (List.concat batches).
Proof.
  intros HP HF. induction HF as [|url trades urls batches Hp _ IH]; simpl.
  - constructor.
  - apply Forall_app. split; [|assumption].
    now apply (@parse_form4_url_invariant py_float http_get fromstring P url).
Qed.

(** X8. [main] gets past every filing: the collection returns, the trades
    it holds are those [parse_form4_url] returned for each URL of the
    index, in the order of the URLs, and [total_trades_count_all] is their
    number. *)
Theorem collect_concatenates (index_url : pystr) :
  exists batches t,
    Forall2 (fun url trades =>
               parse_form4_url py_float http_get fromstring url = Return trades)
            (get_form4_urls_from_index http_get index_url) batches
    /\ collect py_float http_get fromstring index_url = Return t
    /\ all_trades t = List.concat batches
    /\ total_trades_count_all t = List.length (all_trades t).
Proof.
  unfold collect.
  destruct (process_urls_tally (get_form4_urls_from_index http_get index_url)
              initial_totals) as (batches & HF & Hr).
  exists batches. eexists. split; [exact HF|]. split; [exact Hr|].
  destruct (fold_tally (List.concat batches) initial_totals) as (H1 & H2 & _).
  rewrite H1, H2. cbn. split; reflexivity.
Qed.

(** X9. The count kept for a code is the number of collected trades with
    that code; the counts add up to [total_trades_count_all]; each code is
    counted once, and only the target codes P, S, M, X, V are counted. *)
Theorem code_counts_tally (index_url : pystr) (t : Totals) :
  collect py_float http_get fromstring index_url = Return t ->
  (forall c, count_for c (transaction_code_counts t)
             = List.length (filter (fun x => Py.eqb (code x) c) (all_trades t)))
  /\ list_sum (map snd (transaction_code_counts t)) = total_trades_count_all t
  /\ NoDup (map fst (transaction_code_counts t))
  /\ (forall c, In c (map fst (transaction_code_counts t)) -> In c TARGET_CODES).
Proof.
  unfold collect.
  destruct (process_urls_tally (get_form4_urls_from_index http_get index_url)
              initial_totals) as (batches & HF & Hr).
  rewrite Hr. intros E. injection E as <-.
  destruct (fold_tally (List.concat batches) initial_totals)
    as (H1 & H2 & _ & _ & _ & H6).
  destruct (fold_increment (List.concat batches) []) as (C1 & C2 & C3 & C4).
  cbv zeta in *. rewrite H1, H2, H6. cbn [initial_totals all_trades
    total_trades_count_all transaction_code_counts app].
  repeat split.
  - intros c. now rewrite C1.
  - now rewrite C2.
  - apply C4. constructor.
  - intros c Hc. apply C3 in Hc. destruct Hc as [[] | Hc].
    apply in_map_iff in Hc. destruct Hc as (x & <- & Hx).
    assert (Hall : Forall (fun x => py_in (code x) TARGET_CODES = true)
                          (List.concat batches)).
    { eapply batches_invariant; [|exact HF]. intros m tx t' H.
      apply process_transaction_appends in H. tauto. }
    rewrite Forall_forall in Hall. apply py_in_In. now apply Hall.
Qed.

(** X10. [mega_trade_count] is the number of collected value trades at or
    above [MEGA_TRADE_THRESHOLD], never more than the number of value
    trades; [total_value_all] and [mega_trade_total_value] are the float
    sums, from 0.0 and in the order collected, of the values of the value
    trades and of the mega trades: a trade that is no value trade adds to
    neither. *)
Theorem value_totals_tally (index_url : pystr) (t : Totals) :
  collect py_float http_get fromstring index_url = Return t ->
  mega_trade_count t = List.length (filter is_mega_trade (all_trades t))
  /\ mega_trade_count t
     <= List.length (filter is_value_trade (all_trades t))
     <= total_trades_count_all t
  /\ total_value_all t
     = fold_left PrimFloat.add
                 (map value (filter is_value_trade (all_trades t))) 0%float
  /\ mega_trade_total_value t
     = fold_left PrimFloat.add
                 (map value (filter is_mega_trade (all_trades t))) 0%float.
Proof.
  unfold collect.
  destruct (process_urls_tally (get_form4_urls_from_index http_get index_url)
              initial_totals) as (batches & HF & Hr).
  rewrite Hr. intros E. injection E as <-.
  destruct (fold_tally (List.concat batches) initial_totals)
    as (H1 & H2 & H3 & H4 & H5 & _).
  rewrite H1, H2, H3, H4, H5.
  cbn [initial_totals all_trades total_trades_count_all mega_trade_count
       total_value_all mega_trade_total_value app Nat.add].
  assert (Hle : forall l, List.length (filter is_mega_trade l)
                          <= List.length (filter is_value_trade l)
                          <= List.length l).
  { induction l as [|x l IH]; [simpl; lia|]. cbn [filter]. unfold is_mega_trade at 1.
    destruct (is_value_trade x), (PrimFloat.leb MEGA_TRADE_THRESHOLD (value x));
      cbn; lia. }
  repeat split; try apply Hle.
Qed.

End MainFacts.

Lemma code_counts_tally_witness :
  count_for ("P"%string : pystr)
    (transaction_code_counts
       (fold_left tally [sample_trade "P" 4000000 5 true;
                         sample_trade "M" 500 0 false] initial_totals))
  = List.length
      (filter (fun x => Py.eqb (code x) ("P"%string : pystr))
         (all_trades
            (fold_left tally [sample_trade "P" 4000000 5 true;
                              sample_trade "M" 500 0 false] initial_totals))).
Proof.
  apply (@code_counts_tally float_of_digits sample_site
           (parsed_as two_trade_filing) ("index"%string : pystr)).
  vm_compute. reflexivity.
Defined.

Lemma value_totals_tally_witness :
  mega_trade_count
    (fold_left tally [sample_trade "P" 4000000 5 true;
                      sample_trade "M" 500 0 false] initial_totals)
  = List.length
      (filter is_mega_trade
         (all_trades
            (fold_left tally [sample_trade "P" 4000000 5 true;
                              sample_trade "M" 500 0 false] initial_totals))).
Proof.
  apply (@value_totals_tally float_of_digits sample_site
           (parsed_as two_trade_filing) ("index"%string : pystr)).
  vm_compute. reflexivity.
Defined.

(** ** The report row *)

Lemma length_ljust (width : nat) (s : pystr) :
  List.length (ljust width s) = Nat.max width (List.length s).
Proof. unfold ljust. rewrite length_app, repeat_length. lia. Qed.

Lemma length_rjust (width : nat) (s : pystr) :
  List.length (rjust width s) = Nat.max width (List.length s).
Proof. unfold rjust. rewrite length_app, repeat_length. lia. Qed.

Lemma length_truncated (width : nat) (s : pystr) :
  List.length (ljust width (firstn width s)) = width.
Proof.
  rewrite length_ljust. pose proof (firstn_le_length width s).
  rewrite length_firstn. lia.
Qed.

Section ReportFacts.

Variable format_0f : float -> pystr.
Variable format_2f : float -> pystr.

(** X11. A report row is never shorter than 146 characters, and it has
    exactly 146 when the date, the code and the ticker fit their columns
    of 10, 4 and 8 characters and the three numbers fit theirs of 12, 14
    and 20; the company, the filer and the title always take 25, 25 and 20
    characters, cut or padded. *)
Theorem report_row_width (trade : Trade) :
  146 <= List.length (format_report_row format_0f format_2f trade)
  /\ (List.length (date trade) <= 10 ->
      List.length (code trade) <= 4 ->
      List.length (ticker trade) <= 8 ->
      List.length (format_0f (shares trade)) <= 12 ->
      List.length (format_2f (price trade)) <= 13 ->
      List.length (format_2f (value trade)) <= 19 ->
      List.length (format_report_row format_0f format_2f trade) = 146).
Proof.
  unfold format_report_row. cbv zeta.
  rewrite !length_app, !length_truncated, !length_ljust, !length_rjust.
  assert (Hp : List.length
                 (if PrimFloat.ltb 0 (price trade)
                  then ("$"%string : pystr) ++ format_2f (price trade)
                  else ("N/A"%string : pystr))
               <= 1 + List.length (format_2f (price trade))
                  \/ List.length
                       (if PrimFloat.ltb 0 (price trade)
                        then ("$"%string : pystr) ++ format_2f (price trade)
                        else ("N/A"%string : pystr)) = 3).
  { destruct (PrimFloat.ltb 0 (price trade)); [left | right; reflexivity].
    rewrite length_app. change (List.length ("$"%string : pystr)) with 1. lia. }
  change (List.length (" "%string : pystr)) with 1.
  change (List.length (("$"%string : pystr) ++ format_2f (value trade)))
    with (1 + List.length (format_2f (value trade))).
  split; [lia|]. intros. lia.
Qed.

End ReportFacts.

Lemma report_row_width_witness :
  List.length (format_report_row str_of_float str_of_float
                 (sample_trade "M" 0 0 false)) = 146.
Proof.
  apply (@report_row_width str_of_float str_of_float
           (sample_trade "M" 0 0 false)); vm_compute; lia.
Defined.

(** ** The store behind the two endpoints *)

Lemma subsequence_length {A : Type} (l1 l2 : list A) :
  subsequence l1 l2 -> List.length l1 <= List.length l2.
Proof. induction 1; simpl; lia. Qed.

Lemma subsequence_In {A : Type} (l1 l2 : list A) :
  subsequence l1 l2 -> forall x, In x l1 -> In x l2.
Proof.
  induction 1 as [|y l1 l2 _ IH|y l1 l2 _ IH]; intros x; simpl; [tauto | auto|].
  intros [-> | H]; auto.
Qed.

Section StoreFacts.

Variable py_str : float -> pystr.
Variable py_float : pystr -> option float.
Variable DASHBOARD_API_KEY : pystr.

Lemma deduplicate_trades_idempotent (l : list Trade) :
  deduplicate_trades py_str (deduplicate_trades py_str l)
  = deduplicate_trades py_str l.
Proof.
  rewrite !deduplicate_trades_firsts.
  apply firsts_fixed; [apply firsts_NoDup | intros t _ []].
Qed.

(** X12. The merge accounts for every record: its result is no longer
    than the store and the batch together, holds only trades of the store
    or of the batch, and holds a record for the key of each of them; it is
    the store followed by the batch, nothing removed, exactly when all
    their keys differ. *)
Theorem merge_accounting (S B : list Trade) :
  List.length (merge py_str S B) <= List.length S + List.length B
  /\ (forall t, In t (merge py_str S B) -> In t S \/ In t B)
  /\ (forall t, In t S \/ In t B ->
                In (unique_key py_str t)
                   (map (unique_key py_str) (merge py_str S B)))
  /\ (NoDup (map (unique_key py_str) (S ++ B)) <-> merge py_str S B = S ++ B).
Proof.
  unfold merge. rewrite deduplicate_trades_firsts.
  pose proof (firsts_subsequence py_str (S ++ B) []) as Hsub.
  split; [|split; [|split]].
  - apply subsequence_length in Hsub. rewrite length_app in Hsub. exact Hsub.
  - intros t Ht. apply in_app_or. now apply (subsequence_In Hsub).
  - intros t Ht. apply (firsts_cover py_str (S ++ B) [] t).
    apply in_or_app. exact Ht.
  - split.
    + intros Hnd. apply firsts_fixed; [assumption | intros t _ []].
    + intros E. rewrite <- E. apply firsts_NoDup.
Qed.

(** X13. The two endpoints change the stored trades only when they answer
    200: on every other answer the store is as it was, and [clean_data]
    answers 403 whenever the key differs. *)
Theorem store_changes_only_on_success
    (request : Request) (received_key : option pystr) (stored : list Trade) :
  (fst (upload_trades py_str DASHBOARD_API_KEY request stored) <> 200 ->
   snd (upload_trades py_str DASHBOARD_API_KEY request stored) = stored)
  /\ (fst (Dash.clean_data py_str DASHBOARD_API_KEY received_key stored) <> 200 ->
      snd (Dash.clean_data py_str DASHBOARD_API_KEY received_key stored) = stored)
  /\ (key_mismatch DASHBOARD_API_KEY received_key = true ->
      Dash.clean_data py_str DASHBOARD_API_KEY received_key stored
      = (403, stored)).
Proof.
  unfold upload_trades, Dash.clean_data. repeat split.
  - destruct (is_json request); cbn [negb]; [|reflexivity].
    destruct (get_json request) as [[|[[|l]|]]|]; try reflexivity;
      destruct (key_mismatch DASHBOARD_API_KEY (x_api_key request));
      try reflexivity; cbn; intros H; now destruct H.
  - destruct (key_mismatch DASHBOARD_API_KEY received_key); [reflexivity|].
    destruct stored; cbn; intros H; now destruct H.
  - intros ->. reflexivity.
Qed.

(** X14. The cleanup is idempotent, and it finds nothing to remove in
    what an accepted upload has stored. *)
Theorem cleanup_is_idempotent (received_key : option pystr) (stored : list Trade) :
  snd (Dash.clean_data py_str DASHBOARD_API_KEY received_key
         (snd (Dash.clean_data py_str DASHBOARD_API_KEY received_key stored)))
  = snd (Dash.clean_data py_str DASHBOARD_API_KEY received_key stored)
  /\ (forall request stored',
         upload_trades py_str DASHBOARD_API_KEY request stored = (200, stored') ->
         snd (Dash.clean_data py_str DASHBOARD_API_KEY received_key stored')
         = stored').
Proof.
  assert (Hclean : forall l,
             deduplicate_trades py_str l = l ->
             snd (Dash.clean_data py_str DASHBOARD_API_KEY received_key l) = l).
  { intros l Hl. unfold Dash.clean_data.
    destruct (key_mismatch DASHBOARD_API_KEY received_key); [reflexivity|].
    destruct l; [reflexivity | exact Hl]. }
  split.
  - unfold Dash.clean_data at 2 3.
    destruct (key_mismatch DASHBOARD_API_KEY received_key) eqn:E.
    + unfold Dash.clean_data. now rewrite E.
    + destruct stored as [|t stored]; cbn [snd].
      * unfold Dash.clean_data. now rewrite E.
      * apply Hclean, deduplicate_trades_idempotent.
  - intros request stored' H. apply Hclean. unfold upload_trades in H.
    destruct (is_json request); cbn [negb] in H; [|discriminate].
    destruct (get_json request) as [[|[[|l]|]]|]; try discriminate;
      destruct (key_mismatch DASHBOARD_API_KEY (x_api_key request));
      try discriminate; injection H as <-; apply deduplicate_trades_idempotent.
Qed.

End StoreFacts.

Lemma merge_accounting_witness :
  merge str_of_float [stored_trade] [sample_trade "P" 5 5 true]
  = [stored_trade] ++ [sample_trade "P" 5 5 true].
Proof.
  apply (proj1 (proj2 (proj2 (proj2
           (merge_accounting str_of_float [stored_trade]
              [sample_trade "P" 5 5 true]))))).
  vm_compute. repeat constructor; simpl; intuition discriminate.
Defined.

Lemma store_changes_only_on_success_witness :
  snd (upload_trades str_of_float ("secret"%string : pystr) plain_request
         [stored_trade]) = [stored_trade].
Proof.
  apply (proj1 (store_changes_only_on_success str_of_float
                  ("secret"%string : pystr) plain_request None [stored_trade])).
  vm_compute. discriminate.
Defined.

Lemma cleanup_is_idempotent_witness :
  snd (Dash.clean_data str_of_float ("secret"%string : pystr)
         (Some ("secret"%string : pystr)) [stored_trade])
  = [stored_trade].
Proof.
  apply (proj2 (cleanup_is_idempotent str_of_float ("secret"%string : pystr)
                  (Some ("secret"%string : pystr)) [])
           (mkRequest true (Some (Dict (Some (TradeList [stored_trade]))))
                      (Some ("secret"%string : pystr)))).
  vm_compute. reflexivity.
Defined.

(** ** The page *)

Lemma remove_char_app (c : ascii) (a b : pystr) :
  Py.remove_char c (a ++ b) = Py.remove_char c a ++ Py.remove_char c b.
Proof. unfold Py.remove_char. apply filter_app. Qed.

Lemma remove_char_cons (c d : ascii) (s : pystr) :
  Py.remove_char c (d :: s)
  = if Ascii.eqb d c then Py.remove_char c s else d :: Py.remove_char c s.
Proof. unfold Py.remove_char. simpl. now destruct (Ascii.eqb d c). Qed.

Lemma subsequence_filter {A : Type} (f : A -> bool) (l : list A) :
  subsequence (filter f l) l.
Proof.
  induction l as [|x l IH]; simpl; [constructor|].
  destruct (f x); now constructor.
Qed.

Lemma subsequence_trans {A : Type} (l1 l2 l3 : list A) :
  subsequence l1 l2 -> subsequence l2 l3 -> subsequence l1 l3.
Proof.
  intros H12 H23. revert l1 H12.
  induction H23 as [|x l2 l3 _ IH|x l2 l3 _ IH]; intros l1 H12.
  - assumption.
  - constructor. now apply IH.
  - inversion H12; subst; constructor; now apply IH.
Qed.

Lemma str_ltb_trans (a : pystr) :
  forall b c, str_ltb a b = true -> str_ltb b c = true -> str_ltb a c = true.
Proof.
  induction a as [|x a IH]; intros [|y b] [|z c]; simpl; try discriminate; auto.
  rewrite !orb_true_iff, !andb_true_iff, !Nat.ltb_lt, !Nat.eqb_eq.
  intros [H1 | (H1 & H1')] [H2 | (H2 & H2')]; try (left; lia).
  right. split; [lia|]. now apply (IH b c).
Qed.

Lemma str_ltb_cotrans (a : pystr) :
  forall b c, str_ltb a c = true -> str_ltb a b = true \/ str_ltb b c = true.
Proof.
  induction a as [|x a IH]; intros [|y b] [|z c]; simpl; try discriminate; auto.
  rewrite !orb_true_iff, !andb_true_iff, !Nat.ltb_lt, !Nat.eqb_eq.
  intros [H | (H & H')].
  - destruct (Nat.lt_trichotomy (Py.code x) (Py.code y)) as [L | [E | G]];
      [left; left; exact L | right; left; lia | right; left; lia].
  - destruct (Nat.lt_trichotomy (Py.code x) (Py.code y)) as [L | [E | G]];
      [left; left; exact L | | right; left; lia].
    destruct (IH b c H') as [K | K]; [left | right]; right; split; auto; lia.
Qed.

(** The running maximum of [py_max]: one of the items, with none above. *)
Lemma fold_max (rest : list pystr) :
  forall x,
    let m := fold_left (fun m y => if str_ltb m y then y else m) rest x in
    (m = x \/ In m rest)
    /\ str_ltb m x = false
    /\ forall y, In y rest -> str_ltb m y = false.
Proof.
  induction rest as [|y rest IH]; intros x; cbn [fold_left].
  - cbv zeta. split; [now left|]. split; [|intros ? []].
    destruct (str_ltb x x) eqn:E; [|reflexivity].
    exfalso. clear -E. induction x as [|c x IH]; simpl in E; [discriminate|].
    rewrite Nat.ltb_irrefl, Nat.eqb_refl in E. simpl in E. auto.
  - cbv zeta. destruct (str_ltb x y) eqn:Exy.
    + destruct (IH y) as (H1 & H2 & H3). cbv zeta in *. repeat split.
      * destruct H1 as [-> | H1]; right; [now left | now right].
      * match goal with |- ?lhs = false => destruct lhs eqn:E end;
          [|reflexivity].
        rewrite (@str_ltb_trans _ _ _ E Exy) in H2. discriminate.
      * intros z [<- | Hz]; [assumption | now apply H3].
    + destruct (IH x) as (H1 & H2 & H3). cbv zeta in *. repeat split.
      * destruct H1 as [-> | H1]; [now left | right; now right].
      * assumption.
      * intros z [<- | Hz]; [|now apply H3].
        match goal with |- ?lhs = false => destruct lhs eqn:E end;
          [|reflexivity].
        destruct (@str_ltb_cotrans _ x _ E) as [K | K]; congruence.
Qed.

Section PageFacts.

Variable py_str : float -> pystr.
Variable py_float : pystr -> option float.

Let clean := Dash.clean_and_convert_value py_str py_float.
Let shown := Dash.trades_to_display py_str py_float.

(** X15. [clean_and_convert_value] reads a text the same with or without
    a dollar sign or a comma, wherever it stands; it gives 0.0 for [None]
    and for a text [float()] refuses. *)
Theorem clean_and_convert_value_ignores_marks (a b : pystr) :
  clean (ObjStr (a ++ "$"%char :: b)) = clean (ObjStr (a ++ b))
  /\ clean (ObjStr (a ++ ","%char :: b)) = clean (ObjStr (a ++ b))
  /\ clean ObjNone = 0%float
  /\ (py_float (Py.strip (Py.remove_char "," (Py.remove_char "$" (a ++ b))))
      = None ->
      clean (ObjStr (a ++ b)) = 0%float).
Proof.
  unfold clean, Dash.clean_and_convert_value. cbn [Dash.str_of].
  repeat split.
  - rewrite !remove_char_app, remove_char_cons. reflexivity.
  - rewrite !remove_char_app, remove_char_cons.
    change (Ascii.eqb "," "$") with false. cbv iota.
    rewrite remove_char_cons. reflexivity.
  - intros ->. reflexivity.
Qed.

(** X16. When neither the ticker query nor a stored ticker holds the code
    point 181 or 255, the trades shown are the stored trades, in their
    stored order, whose cleaned value reaches the minimum and, when the
    ticker query is not blank, whose ticker in upper case equals the query
    in upper case, stripped; the case of the query does not matter. *)
Theorem displayed_trades (all : list Trade) (arg : pystr) :
  Py.upper_in_range arg = true ->
  (forall t, In t all -> Py.upper_in_range (ticker t) = true) ->
  (forall t,
      In t (shown all arg) <->
      In t all
      /\ PrimFloat.leb Dash.MIN_TRADE_VALUE (clean (ObjFloat (value t))) = true
      /\ (Dash.filter_ticker_of arg = []
          \/ Py.upper (ticker t) = Dash.filter_ticker_of arg))
  /\ subsequence (shown all arg) all
  /\ shown all (Py.upper arg) = shown all arg.
Proof.
  intros _ _.
  unfold shown, Dash.trades_to_display. cbv zeta. split; [|split].
  - intros t. destruct (Dash.filter_ticker_of arg) as [|c f] eqn:E.
    + rewrite filter_In. intuition.
    + rewrite !filter_In, Py_eqb_eq. split.
      * intros ((H1 & H2) & H3). auto.
      * intros (H1 & H2 & [H3 | H3]); [discriminate H3 | auto].
  - destruct (Dash.filter_ticker_of arg).
    + apply subsequence_filter.
    + eapply subsequence_trans; apply subsequence_filter.
  - unfold Dash.filter_ticker_of. now rewrite upper_idempotent.
Qed.

(** X17. The banner reads ["N/A"] when no trade is shown. When one is,
    it is the date of a stored trade, shown or not, and no stored trade
    has a later date in the order of strings. *)
Theorem latest_update_date_is_greatest (all : list Trade) (arg : pystr) :
  (shown all arg = [] ->
   Dash.latest_update_date py_str py_float all arg = ("N/A"%string : pystr))
  /\ (shown all arg <> [] ->
      In (Dash.latest_update_date py_str py_float all arg) (map date all)
      /\ forall t, In t all ->
           str_ltb (Dash.latest_update_date py_str py_float all arg) (date t)
           = false).
Proof.
  unfold Dash.latest_update_date. fold shown. split.
  - intros ->. reflexivity.
  - intros Hne. destruct (shown all arg) as [|t0 rest] eqn:E; [now destruct Hne|].
    destruct all as [|x all].
    { unfold shown, Dash.trades_to_display in E. cbn in E.
      destruct (Dash.filter_ticker_of arg); discriminate E. }
    cbn [map py_max].
    destruct (fold_max (map date all) (date x)) as (H1 & H2 & H3).
    cbv zeta in *. split.
    + destruct H1 as [-> | H1]; [now left | now right].
    + intros t [<- | Ht]; [assumption|]. apply H3. now apply in_map.
Qed.

End PageFacts.

(** X18. The link of the column the page is sorted by always reverses
    the direction of the sort, and following it twice gives back an order
    of ["asc"] or ["desc"]; the link of any other column asks for
    ["desc"]. *)
Theorem sort_link_toggles (column_name current_sort_by current_order : pystr) :
  reverse_sort (new_order column_name column_name current_order)
  = negb (reverse_sort current_order)
  /\ (current_order = ("asc"%string : pystr)
      \/ current_order = ("desc"%string : pystr) ->
      new_order column_name column_name
                (new_order column_name column_name current_order)
      = current_order)
  /\ (column_name <> current_sort_by ->
      new_order column_name current_sort_by current_order
      = ("desc"%string : pystr)).
Proof.
  assert (Hrefl : Py.eqb column_name column_name = true) by now apply Py_eqb_eq.
  unfold new_order, reverse_sort. rewrite Hrefl. repeat split.
  - destruct (Py.eqb current_order "desc"%string); reflexivity.
  - intros [-> | ->]; reflexivity.
  - intros Hne. destruct (Py.eqb column_name current_sort_by) eqn:E;
      [|reflexivity].
    apply Py_eqb_eq in E. contradiction.
Qed.

Lemma sort_link_toggles_witness :
  new_order ("value"%string : pystr) ("value"%string : pystr)
            (new_order ("value"%string : pystr) ("value"%string : pystr)
                       ("asc"%string : pystr))
  = ("asc"%string : pystr).
Proof.
  apply (proj1 (proj2 (sort_link_toggles ("value"%string : pystr)
                         ("value"%string : pystr) ("asc"%string : pystr)))).
  left. reflexivity.
Defined.

Lemma clean_and_convert_value_ignores_marks_witness :
  Dash.clean_and_convert_value str_of_float float_of_digits
    (ObjStr (("1"%string : pystr) ++ ","%char :: ("000"%string : pystr)))
  = Dash.clean_and_convert_value str_of_float float_of_digits
      (ObjStr (("1"%string : pystr) ++ ("000"%string : pystr))).
Proof.
  apply (proj1 (proj2 (clean_and_convert_value_ignores_marks
                         str_of_float float_of_digits
                         ("1"%string : pystr) ("000"%string : pystr)))).
Defined.

(** ** The key of config.py *)

Lemma loaded_key_not_empty (environ : pystr -> option pystr) :
  load_api_key environ <> Some [].
Proof.
  unfold load_api_key.
  destruct (py_or _ _) as [[|c k]|]; discriminate.
Qed.

(** X19. [config.py] defines a key exactly when one of the two variables
    holds a non-empty string; the key is then never empty, it is
    [DASHBOARD_API_KEY] when that one is not empty and
    [DASHBOARD_PRIVATE_KEY] otherwise. *)
Theorem api_key_loading (environ : pystr -> option pystr) :
  let primary := environ ("DASHBOARD_API_KEY"%string : pystr) in
  let fallback := environ ("DASHBOARD_PRIVATE_KEY"%string : pystr) in
  (load_api_key environ = None <->
   (primary = None \/ primary = Some []) /\ (fallback = None \/ fallback = Some []))
  /\ load_api_key environ <> Some []
  /\ (forall k, primary = Some k -> k <> [] -> load_api_key environ = Some k)
  /\ (forall k, primary = None \/ primary = Some [] ->
                fallback = Some k -> k <> [] -> load_api_key environ = Some k).
Proof.
  cbv zeta. unfold load_api_key, py_or.
  destruct (environ ("DASHBOARD_API_KEY"%string : pystr)) as [[|c k]|];
    destruct (environ ("DASHBOARD_PRIVATE_KEY"%string : pystr)) as [[|d k']|];
    repeat split; try discriminate; try tauto; try congruence;
    try (intros [[H|H] [H'|H']]; discriminate);
    try (intros ? [H|H] ?; try discriminate; congruence);
    try (intros ? H ?; injection H as <-; congruence).
Qed.

(** X20. With the key [config.py] defines, a request that brings no key
    or an empty one is answered 403 by the cleanup, and by the upload once
    its body has parsed; the store stays as it was. *)
Theorem missing_key_is_refused
    (py_str : float -> pystr) (environ : pystr -> option pystr) (key : pystr)
    (received_key : option pystr) (stored : list Trade) :
  load_api_key environ = Some key ->
  received_key = None \/ received_key = Some [] ->
  Dash.clean_data py_str key received_key stored = (403, stored)
  /\ forall request body,
       is_json request = true -> get_json request = Some body ->
       x_api_key request = received_key ->
       upload_trades py_str key request stored = (403, stored).
Proof.
  intros Hload Hkey.
  assert (Hne : key <> []).
  { intros ->. now apply (loaded_key_not_empty environ). }
  assert (Hm : key_mismatch key received_key = true).
  { destruct Hkey as [-> | ->]; [reflexivity|]. cbn.
    destruct (Py.eqb [] key) eqn:E; [|reflexivity].
    apply Py_eqb_eq in E. congruence. }
  split.
  - unfold Dash.clean_data. now rewrite Hm.
  - intros request body Hj Hb Hk. unfold upload_trades.
    now rewrite Hj, Hb, Hk, Hm.
Qed.

Lemma api_key_loading_witness :
  load_api_key (fun name =>
                  if Py.eqb name ("DASHBOARD_PRIVATE_KEY"%string : pystr)
                  then Some ("secret"%string : pystr) else None)
  = Some ("secret"%string : pystr).
Proof.
  apply (proj2 (proj2 (proj2 (api_key_loading
           (fun name =>
              if Py.eqb name ("DASHBOARD_PRIVATE_KEY"%string : pystr)
              then Some ("secret"%string : pystr) else None))))).
  - left. reflexivity.
  - reflexivity.
  - discriminate.
Defined.

Lemma missing_key_is_refused_witness :
  Dash.clean_data str_of_float ("secret"%string : pystr) None [stored_trade]
  = (403, [stored_trade]).
Proof.
  apply (@missing_key_is_refused str_of_float
           (fun _ => Some ("secret"%string : pystr))
           ("secret"%string : pystr) None [stored_trade]).
  - reflexivity.
  - left. reflexivity.
Defined.

(** X16 on a store of three trades and the query [" acme "]: the purchase
    of five million is shown, the exercise of value 0.0 and the purchase
    in another issuer are not. *)
Lemma displayed_trades_witness :
  In purchase_trade
     (Dash.trades_to_display str_of_whole_float float_of_decimal
        [stored_trade; other_issuer_trade; purchase_trade]
        (" acme "%string : pystr))
  /\ ~ In stored_trade
       (Dash.trades_to_display str_of_whole_float float_of_decimal
          [stored_trade; other_issuer_trade; purchase_trade]
          (" acme "%string : pystr))
  /\ ~ In other_issuer_trade
       (Dash.trades_to_display str_of_whole_float float_of_decimal
          [stored_trade; other_issuer_trade; purchase_trade]
          (" acme "%string : pystr)).
Proof.
  destruct (@displayed_trades str_of_whole_float float_of_decimal
              [stored_trade; other_issuer_trade; purchase_trade]
              (" acme "%string : pystr)) as (H & _ & _).
  - reflexivity.
  - intros t [<- | [<- | [<- | []]]]; reflexivity.
  - split; [|split].
    + apply H. split; [right; right; now left|].
      split; [vm_compute; reflexivity|]. right. vm_compute. reflexivity.
    + intros Hin. apply H in Hin. destruct Hin as (_ & Hv & _).
      vm_compute in Hv. discriminate Hv.
    + intros Hin. apply H in Hin. destruct Hin as (_ & _ & [Hq | Hq]);
        vm_compute in Hq; discriminate Hq.
Defined.

Lemma latest_update_date_is_greatest_witness :
  In (Dash.latest_update_date str_of_float reads_200000 [stored_trade] [])
     (map date [stored_trade]).
Proof.
  apply (proj2 (latest_update_date_is_greatest str_of_float reads_200000
                  [stored_trade] [])).
  vm_compute. discriminate.
Defined.

(** ** The filters of the transaction loop *)

Section FilterFacts.

Variable py_float : pystr -> option float.
Variable http_get : pystr -> option pystr.
Variable fromstring : pystr -> option ET.Element.

(** X21. Every trade [parse_form4_url] returns has a share count other
    than 0.0, and a returned trade whose code is P or S has a value of at
    least [MIN_TRADE_VALUE]. *)
Theorem returned_trades_pass_the_filters
    (xml_url : pystr) (trades : list Trade) (t : Trade) :
  parse_form4_url py_float http_get fromstring xml_url = Return trades ->
  In t trades ->
  PrimFloat.eqb (shares t) 0 = false
  /\ (In (code t) VALUE_CODES ->
      PrimFloat.leb MIN_TRADE_VALUE (value t) = true).
Proof.
  intros Hparse Hin.
  assert (Hall : Forall (fun t =>
            PrimFloat.eqb (shares t) 0 = false
            /\ is_value_trade t = py_in (code t) VALUE_CODES
            /\ keep_trade t = true) trades).
  { apply (@parse_form4_url_invariant py_float http_get fromstring _ xml_url);
      [|exact Hparse].
    intros m tx t' H. apply process_transaction_appends in H. tauto. }
  rewrite Forall_forall in Hall. destruct (Hall t Hin) as (Hz & Hf & Hk).
  split; [assumption|]. intros Hc. apply py_in_In in Hc.
  apply keep_trade_true in Hk. destruct Hk as [Hk | Hk]; [congruence | assumption].
Qed.

End FilterFacts.

(** X21 on a filing of a purchase of 4,000,000 shares at 5 and an
    exercise: the purchase is returned, and its value reaches the
    minimum. *)
Lemma returned_trades_pass_the_filters_witness :
  PrimFloat.eqb (shares (sample_trade "P" 4000000 5 true)) 0 = false
  /\ (In (code (sample_trade "P" 4000000 5 true)) VALUE_CODES ->
      PrimFloat.leb MIN_TRADE_VALUE (value (sample_trade "P" 4000000 5 true))
      = true).
Proof.
  apply (@returned_trades_pass_the_filters float_of_digits (serve sample_text)
           (parsed_as two_trade_filing) []
           [sample_trade "P" 4000000 5 true; sample_trade "M" 500 0 false]).
  - vm_compute. reflexivity.
  - left. reflexivity.
Defined.
